(** * The Hugging Face example notebook of pytorch-widedeep

    A shallow embedding of
    [examples/notebooks/20_Using_huggingface_within_widedeep.ipynb]:
    the pandas cleaning cells, the class-balanced subsampling, the two
    ways of calling the tokenizer wrapper, the model construction, the
    training call and the evaluation cell.

    - Pandas frames are rectangular tables of cells with a row label
      (the index) per row.  Python exceptions are values of [exn] carried
      by the [result] monad; the notebook has no [try], so every cell is a
      plain sequence of binds.
    - [int64] columns are integers of [Z] with the wrap-around written
      out ([wrap64]).
    - Random draws ([DataFrame.sample]) read an explicit stream of raw
      draws, so a statement quantified over the stream covers every
      outcome of the draw.
    - Frames whose column labels repeat are outside the model (pandas
      then answers [df[name]] with a frame instead of a series): the
      statements about frames assume [NoDup] on the labels, and a label
      is looked up by its position ([col_pos]). *)

From Stdlib Require Import ZArith Lia Ascii String.
From stdpp Require Import base option list sorting strings.

Local Open Scope nat_scope.

(** ** Python values and exceptions *)

Module Py.

(** The exceptions the libraries raise in the cells modelled below. *)
Inductive exn : Type :=
| KeyError (key : string)
| AttributeError (attr : string)
| TypeError
| IndexError
| ValueError.

Inductive result (A : Type) : Type :=
| Ok (a : A)
| Raise (e : exn).
Arguments Ok {A} a.
Arguments Raise {A} e.

Definition bind {A B} (m : result A) (k : A → result B) : result B :=
  match m with
  | Ok a => k a
  | Raise e => Raise e
  end.

Definition raises {A} (m : result A) : Prop :=
  match m with Ok _ => False | Raise _ => True end.

(** [for x in xs: f x], stopping at the first exception. *)
Fixpoint traverse {A B} (f : A → result B) (xs : list A) : result (list B) :=
  match xs with
  | [] => Ok []
  | x :: xs' =>
      bind (f x) (fun y => bind (traverse f xs') (fun ys => Ok (y :: ys)))
  end.

(** [str.replace(old, new)] for one-character [old] and [new]. *)
Fixpoint replace_char (old new : ascii) (s : string) : string :=
  match s with
  | EmptyString => EmptyString
  | String c s' =>
      String (if Ascii.eqb c old then new else c) (replace_char old new s')
  end.

(** [str.lower()] on the ASCII letters; other bytes are left as they are. *)
Definition lower_char (c : ascii) : ascii :=
  let n := nat_of_ascii c in
  if (65 <=? n) && (n <=? 90) then ascii_of_nat (n + 32) else c.

Fixpoint lower (s : string) : string :=
  match s with
  | EmptyString => EmptyString
  | String c s' => String (lower_char c) (lower s')
  end.

(** [str.split(sep)] for a one-character separator: every occurrence of
    the separator cuts, so consecutive separators give empty pieces and
    the empty string gives one empty piece. *)
Fixpoint split (sep : ascii) (s : string) : list string :=
  match s with
  | EmptyString => [EmptyString]
  | String c s' =>
      if Ascii.eqb c sep then EmptyString :: split sep s'
      else match split sep s' with
           | w :: ws => String c w :: ws
           | [] => [String c EmptyString]
           end
  end.

(** Number of occurrences of a character. *)
Fixpoint count_char (sep : ascii) (s : string) : nat :=
  match s with
  | EmptyString => 0
  | String c s' => (if Ascii.eqb c sep then 1 else 0) + count_char sep s'
  end.

End Py.

Export Py.

(** The cells are written with stdpp's monad notation [x ← m; k]. *)
#[export] Instance result_bind : MBind result :=
  fun A B k m => bind m k.
#[export] Instance result_ret : MRet result := @Ok.

(** ** Pandas *)

Module Pandas.

(** A cell of a frame: an integer of an [int64] column, a Python string
    of an [object] column, or a missing value ([NaN] / [None]). *)
Inductive Cell : Type :=
| CInt (z : Z)
| CStr (s : string)
| CNaN.

#[export] Instance Cell_eq_dec : EqDecision Cell.
Proof. solve_decision. Defined.

(** A row: its index label and its cells, one per column. *)
Record Row : Type := mkRow { label : Z; cells : list Cell }.

#[export] Instance Row_eq_dec : EqDecision Row.
Proof. solve_decision. Defined.

Record DataFrame : Type := mkFrame { columns : list string; rows : list Row }.

(** A column (or any one-dimensional result) is a list of cells. *)
Definition Series : Type := list Cell.

Definition shape (df : DataFrame) : nat * nat :=
  (length (rows df), length (columns df)).

(** Every row has one cell per column. *)
Definition rectangular (df : DataFrame) : Prop :=
  Forall (fun r => length (cells r) = length (columns df)) (rows df).

(** Position of a column label. *)
Fixpoint col_pos (name : string) (cols : list string) : option nat :=
  match cols with
  | [] => None
  | c :: cols' =>
      if String.eqb c name then Some 0 else S <$> col_pos name cols'
  end.

Definition cell_at (p : nat) (r : Row) : Cell := default CNaN (cells r !! p).

Definition set_cell (p : nat) (v : Cell) (r : Row) : Row :=
  mkRow (label r) (<[p := v]> (cells r)).

(** [df[name]] *)
Definition getitem (df : DataFrame) (name : string) : result Series :=
  match col_pos name (columns df) with
  | Some p => Ok (map (cell_at p) (rows df))
  | None => Raise (KeyError name)
  end.

(** [df.name] *)
Definition getattr (df : DataFrame) (name : string) : result Series :=
  match col_pos name (columns df) with
  | Some p => Ok (map (cell_at p) (rows df))
  | None => Raise (AttributeError name)
  end.

(** [df[name] = s]: an existing column is overwritten in place, a new
    one is appended; a series of the wrong length is refused. *)
Definition setitem (df : DataFrame) (name : string) (s : Series)
  : result DataFrame :=
  if negb (length s =? length (rows df)) then Raise ValueError
  else match col_pos name (columns df) with
       | Some p =>
           Ok (mkFrame (columns df)
                       (zip_with (fun r v => set_cell p v r) (rows df) s))
       | None =>
           Ok (mkFrame (columns df ++ [name])
                       (zip_with (fun r v => mkRow (label r) (cells r ++ [v]))
                                 (rows df) s))
       end.

(** [df.columns = names] *)
Definition set_columns (df : DataFrame) (names : list string)
  : result DataFrame :=
  if negb (length names =? length (columns df)) then Raise ValueError
  else Ok (mkFrame names (rows df)).

(** Two's complement wrap-around of [int64] arithmetic. *)
Definition wrap64 (z : Z) : Z :=
  ((z + 2 ^ 63) mod 2 ^ 64 - 2 ^ 63)%Z.

(** [s - k] on a series.  Integers wrap, a missing value stays missing
    (the column is then a float column), a string refuses the
    subtraction. *)
Definition sub_cell (k : Z) (c : Cell) : result Cell :=
  match c with
  | CInt z => Ok (CInt (wrap64 (z - k)))
  | CNaN => Ok CNaN
  | CStr _ => Raise TypeError
  end.

Definition series_sub (s : Series) (k : Z) : result Series :=
  traverse (sub_cell k) s.

(** [s.astype("int64")]: a missing value cannot be cast.  The only
    series cast in the notebook are results of [series_sub], which hold
    no strings; a string is refused here as well.  An integer cell stands
    for a value of an [int64] column, as the loaded rating column is: an
    integer that does not fit [int64] is outside this model (pandas would
    hold it as a Python object and refuse the cast with
    [OverflowError]). *)
Definition int64_of_cell (c : Cell) : result Cell :=
  match c with
  | CInt z => Ok (CInt (wrap64 z))
  | CNaN => Raise ValueError
  | CStr _ => Raise ValueError
  end.

Definition astype_int64 (s : Series) : result Series :=
  traverse int64_of_cell s.

(** [s == k] *)
Definition series_eq (s : Series) (k : Z) : list bool :=
  map (fun c => bool_decide (c = CInt k)) s.

(** [s.isna()] *)
Definition isna (s : Series) : list bool :=
  map (fun c => bool_decide (c = CNaN)) s.

(** [~mask] *)
Definition invert (mask : list bool) : list bool := map negb mask.

(** [df.loc[mask, name] = v] *)
Definition loc_set (df : DataFrame) (mask : list bool) (name : string)
           (v : Cell) : result DataFrame :=
  if negb (length mask =? length (rows df)) then Raise ValueError
  else match col_pos name (columns df) with
       | Some p =>
           Ok (mkFrame (columns df)
                       (zip_with (fun r (b : bool) => if b then set_cell p v r else r)
                                 (rows df) mask))
       | None => Raise (KeyError name)
       end.

(** [df[mask]] with a boolean mask: the rows where it holds, with their
    labels. *)
Fixpoint select {A} (xs : list A) (mask : list bool) : list A :=
  match xs, mask with
  | x :: xs', b :: mask' =>
      if b then x :: select xs' mask' else select xs' mask'
  | _, _ => []
  end.

Definition getitem_mask (df : DataFrame) (mask : list bool)
  : result DataFrame :=
  if negb (length mask =? length (rows df)) then Raise ValueError
  else Ok (mkFrame (columns df) (select (rows df) mask)).

(** [s.apply(f)] *)
Definition series_apply (f : Cell → result Cell) (s : Series)
  : result Series :=
  traverse f s.

(** [s >= k]: a missing value compares false, a string refuses the
    comparison with an integer. *)
Definition ge_cell (k : Z) (c : Cell) : result bool :=
  match c with
  | CInt z => Ok (k <=? z)%Z
  | CNaN => Ok false
  | CStr _ => Raise TypeError
  end.

Definition series_ge (s : Series) (k : Z) : result (list bool) :=
  traverse (ge_cell k) s.

(** [df.drop(name, axis=1)] *)
Definition drop_column (df : DataFrame) (name : string) : result DataFrame :=
  match col_pos name (columns df) with
  | Some p =>
      Ok (mkFrame (delete p (columns df))
                  (map (fun r => mkRow (label r) (delete p (cells r))) (rows df)))
  | None => Raise (KeyError name)
  end.

(** [df.reset_index(drop=True)]: the labels become [0 .. n-1]. *)
Definition reset_index (df : DataFrame) : DataFrame :=
  mkFrame (columns df)
          (imap (fun i r => mkRow (Z.of_nat i) (cells r)) (rows df)).

(** The global random state of numpy: a stream of raw draws and the
    number of draws already consumed. *)
Record RandomState : Type := mkRandom { draws : nat → nat; consumed : nat }.

(** [n] draws without replacement: each raw draw picks one of the rows
    still in the urn, which leaves the urn.  The result lists the rows in
    the order they were drawn. *)
Fixpoint choose {A} (n : nat) (g : nat → nat) (k : nat) (urn : list A)
  : list A :=
  match n with
  | 0 => []
  | S n' =>
      let i := g k mod length urn in
      match urn !! i with
      | Some x => x :: choose n' g (S k) (delete i urn)
      | None => []
      end
  end.

(** [df.sample(n)]: without replacement, so a sample larger than the
    frame is refused. *)
Definition sample (df : DataFrame) (n : nat) (st : RandomState)
  : result (DataFrame * RandomState) :=
  if length (rows df) <? n then Raise ValueError
  else Ok (mkFrame (columns df) (choose n (draws st) (consumed st) (rows df)),
           mkRandom (draws st) (consumed st + n)).

(** The group keys of an integer key column: its distinct values in
    ascending order.  Rows whose key is missing belong to no group.  The
    notebook groups on the rating column only, which cell 5 has cast to
    [int64]; keys of other types are not modelled and refused. *)
Definition key_of_cell (c : Cell) : result (option Z) :=
  match c with
  | CInt z => Ok (Some z)
  | CNaN => Ok None
  | CStr _ => Raise TypeError
  end.

Definition group_keys (s : Series) : result (list Z) :=
  ks ← traverse key_of_cell s;
  Ok (merge_sort Z.le (remove_dups (omap id ks))).

(** The rows of one group, in the order of the frame. *)
Definition group_rows (p : nat) (key : Z) (rs : list Row) : list Row :=
  List.filter (fun r => bool_decide (cell_at p r = CInt key)) rs.

(** [f] applied to the groups in turn; the results are concatenated
    ([group_keys=False] keeps the rows as they are). *)
Fixpoint apply_groups
         (f : DataFrame → RandomState → result (DataFrame * RandomState))
         (groups : list DataFrame) (st : RandomState)
  : result (list Row * RandomState) :=
  match groups with
  | [] => Ok ([], st)
  | g :: groups' =>
      '(d, st) ← f g st;
      '(ds, st) ← apply_groups f groups' st;
      Ok (rows d ++ ds, st)
  end.

(** [df.groupby(name, group_keys=False).apply(f)] *)
Definition groupby_apply (df : DataFrame) (name : string)
           (f : DataFrame → RandomState → result (DataFrame * RandomState))
           (st : RandomState) : result (DataFrame * RandomState) :=
  match col_pos name (columns df) with
  | None => Raise (KeyError name)
  | Some p =>
      keys ← group_keys (map (cell_at p) (rows df));
      '(rs, st) ← apply_groups f
          (map (fun key => mkFrame (columns df) (group_rows p key (rows df))) keys)
          st;
      Ok (mkFrame (columns df) rs, st)
  end.

End Pandas.

Export Pandas.

(** ** The tokenizer and its wrapper *)

Module HuggingFace.

Inductive Padding : Type :=
| PadMaxLength   (* padding="max_length" *)
| PadLongest     (* padding="longest" or True *)
| DoNotPad.      (* padding="do_not_pad" or False *)

(** The keyword arguments the notebook passes to the tokenizer. *)
Record EncodeParams : Type := mkParams {
  max_length : nat;
  padding : Padding;
  truncation : bool;
  add_special_tokens : bool
}.

(** A pretrained tokenizer: its subword algorithm, which is not
    specified here, and the ids of its special tokens. *)
Record Tokenizer : Type := mkTokenizer {
  subwords : string → list Z;
  cls_id : Z;
  sep_id : Z;
  pad_id : Z
}.

(** Modelled from the spec: the room truncation leaves to the subwords,
    two places being kept for the special tokens when they are added. *)
Definition special_room (params : EncodeParams) : nat :=
  if add_special_tokens params then max_length params - 2 else max_length params.

(** Modelled from the spec: the tokenizer is an external library; the
    spec describes its output as fixed-length integer ID sequences under a
    padding and truncation policy supplied as configuration.  With
    truncation the subwords are cut so that the sequence, with the two
    special tokens when they are added, fits [max_length]; padding to the
    maximum length fills up on the right with the padding id. *)
Definition encode_text (tk : Tokenizer) (params : EncodeParams) (text : string)
  : list Z :=
  let toks := subwords tk text in
  let toks := if truncation params then take (special_room params) toks else toks in
  let ids := if add_special_tokens params
             then cls_id tk :: toks ++ [sep_id tk] else toks in
  match padding params with
  | PadMaxLength => ids ++ replicate (max_length params - length ids) (pad_id tk)
  | _ => ids
  end.

(** Modelled from the spec: padding to the longest sequence of the batch,
    the other padding policy that gives the batch one length. *)
Definition pad_batch (tk : Tokenizer) (params : EncodeParams)
           (batch : list (list Z)) : list (list Z) :=
  match padding params with
  | PadLongest =>
      let longest := max_list (map length batch) in
      map (fun ids => ids ++ replicate (longest - length ids) (pad_id tk)) batch
  | _ => batch
  end.

(** The tokenizer takes strings only. *)
Definition text_of_cell (c : Cell) : result string :=
  match c with
  | CStr s => Ok s
  | _ => Raise ValueError
  end.

Section Hub.
(** [AutoTokenizer.from_pretrained(model_name)] *)
Variable pretrained : string → Tokenizer.

(** Modelled from the spec: the preprocessor object of the library, as the
    notebook builds it: the arguments it was built with, of which
    [text_col] and [encode_params] may be left out ([None]). *)
Record HFPreprocessor : Type := mkHFPreprocessor {
  model_name : string;
  text_col : option string;
  num_workers : nat;
  encode_params : option EncodeParams
}.

(** Modelled from the spec: [HFPreprocessor.encode] is code of the library
    that is not among the sources.  The notebook describes it as "simply a
    wrapper around the encode method of HF's tokenizers": it hands the
    texts and the keyword arguments to the tokenizer of the model name. *)
Definition encode (self : HFPreprocessor) (texts : list Cell)
           (params : EncodeParams) : result (list (list Z)) :=
  texts ← traverse text_of_cell texts;
  let tk := pretrained (model_name self) in
  Ok (pad_batch tk params (map (encode_text tk params) texts)).

(** Modelled from the spec: [HFPreprocessor.fit], not among the sources.
    The notebook describes the first convention as passing [text_col] and
    [encode_params] at instantiation and then using [fit] and [transform]
    as with any other preprocessor; without them there is nothing to fit. *)
Definition fit (self : HFPreprocessor) (df : DataFrame)
  : result HFPreprocessor :=
  match text_col self, encode_params self with
  | Some _, Some _ => Ok self
  | _, _ => Raise ValueError
  end.

(** Modelled from the spec: [HFPreprocessor.transform], not among the
    sources: the text column of the frame, encoded with the parameters the
    preprocessor was built with. *)
Definition transform (self : HFPreprocessor) (df : DataFrame)
  : result (list (list Z)) :=
  match text_col self, encode_params self with
  | Some col, Some params =>
      texts ← getitem df col;
      encode self texts params
  | _, _ => Raise ValueError
  end.

(** Modelled from the spec: [HFPreprocessor.fit_transform], not among the
    sources: [fit], then [transform]. *)
Definition fit_transform (self : HFPreprocessor) (df : DataFrame)
  : result (list (list Z)) :=
  self ← fit self df;
  transform self df.

End Hub.

End HuggingFace.

Export HuggingFace.

(** ** The model, the trainer and the metrics *)

Module WideDeepLib.

(** What the notebook leaves to torch, numpy and scikit-learn: the
    floating-point numbers with their comparison, the weights of a model,
    one optimisation step on a batch, the value of a training metric on a
    batch, the probability the network gives to a class, and the two
    scikit-learn scores.  None of them is specified here; the notebook's
    own code is stated for every choice of them. *)
Class Backend : Type := mkBackend {
  float : Type;
  float_ltb : float → float → bool;
  Weights : Type;
  step_fn : Weights → list (list Z * Z) → Weights * float;
  metric_fn : string → Weights → list (list Z * Z) → float;
  class_proba : Weights → list Z → nat → float;
  accuracy_score : list Z → list Z → result float;
  f1_score : string → list Z → list Z → result float
}.

(** Modelled from the spec: [HFModel(model_name=...)], the pretrained
    transformer wrapper of the library, not among the sources; the
    notebook passes it a model name only. *)
Record HFModel : Type := mkHFModel { hf_name : string }.

(** A branch of the composite model.  The notebook builds a text branch
    only; the other kinds of branch are not described further. *)
Inductive Branch : Type :=
| TextBranch (m : HFModel)
| OtherBranch (kind : string).

(** Modelled from the spec: [WideDeep] is code of the library that is not
    among the sources.  The spec describes it as a composite predictor
    into which the transformer wrapper is plugged as the text-feature
    submodule, alongside wide and deep branches that may be absent; a
    branch that is not passed is [None]. *)
Record WideDeep : Type := mkWideDeep {
  wide : option Branch;
  deeptabular : option Branch;
  deeptext : option Branch;
  deepimage : option Branch;
  pred_dim : nat
}.

(** Modelled from the spec: the branches that are plugged into the
    composite predictor, by argument name. *)
Definition branches (m : WideDeep) : list (string * Branch) :=
  omap (fun '(name, b) => pair name <$> b)
       [("wide", wide m); ("deeptabular", deeptabular m);
        ("deeptext", deeptext m); ("deepimage", deepimage m)].

(** The metrics the notebook passes: [Accuracy()], [F1Score(average=True)]. *)
Inductive Metric : Type :=
| Accuracy
| F1Score (average : bool).

(** The names the progress bar prints the metrics under. *)
Definition metric_name (m : Metric) : string :=
  match m with
  | Accuracy => "acc"
  | F1Score _ => "f1"
  end.

(** Modelled from the spec: the trainer object of the library, as the
    notebook builds it: a model, an objective and the metrics to report. *)
Record Trainer : Type := mkTrainer {
  model : WideDeep;
  objective : string;
  metrics : list Metric
}.

(** What the progress bar shows after a step. *)
Record StepReport `{B : Backend} : Type := mkReport {
  epoch : nat;
  step : nat;
  loss : float;
  metric_values : list (string * float)
}.
Arguments mkReport {_} _ _ _ _.

(** Number of batches of a data set: the last batch may be short. *)
Definition num_batches (n batch_size : nat) : nat :=
  (n + batch_size - 1) / batch_size.

Definition batches {A} (batch_size : nat) (data : list A) : list (list A) :=
  map (fun i => take batch_size (drop (i * batch_size) data))
      (seq 0 (num_batches (length data) batch_size)).

(** [np.argmax] of one row: the first position of a largest entry. *)
Fixpoint argmax_from `{B : Backend} (best : nat) (best_v : float) (i : nat)
         (row : list float) : nat :=
  match row with
  | [] => best
  | v :: row' =>
      if float_ltb best_v v then argmax_from i v (S i) row'
      else argmax_from best best_v (S i) row'
  end.

Definition argmax `{B : Backend} (row : list float) : nat :=
  match row with
  | [] => 0
  | v :: row' => argmax_from 0 v 1 row'
  end.

Section Training.
Context `{B : Backend}.

(** Modelled from the spec: one epoch of [Trainer.fit], code of the
    library that is not among the sources.  The spec describes a generic
    trainer that runs the epochs it is asked for and reports loss and
    metrics per step; the notebook's progress bar counts 13 steps for 800
    reviews in batches of 64, one per batch.  What a step computes is left
    to the backend: [w] is all the trainer keeps from one step to the
    next, the weights and whatever lies behind the figures it reports. *)
Fixpoint run_batches (t : Trainer) (e i : nat)
         (bs : list (list (list Z * Z))) (w : Weights)
  : Weights * list StepReport :=
  match bs with
  | [] => (w, [])
  | b :: bs' =>
      let '(w1, l) := step_fn w b in
      let r := mkReport e i l
                 (map (fun m => (metric_name m, metric_fn (metric_name m) w1 b))
                      (metrics t)) in
      let '(w2, rs) := run_batches t e (S i) bs' w1 in
      (w2, r :: rs)
  end.

(** Modelled from the spec: the epochs of [Trainer.fit], one pass over
    the batches each, numbered from 1. *)
Fixpoint run_epochs (t : Trainer) (n e : nat)
         (bs : list (list (list Z * Z))) (w : Weights)
  : Weights * list StepReport :=
  match n with
  | 0 => (w, [])
  | S n' =>
      let '(w1, rs) := run_batches t e 1 bs w in
      let '(w2, rs') := run_epochs t n' (S e) bs w1 in
      (w2, rs ++ rs')
  end.

(** Modelled from the spec:
    [trainer.fit(X_text=..., target=..., n_epochs=..., batch_size=...)],
    not among the sources, on inputs as the notebook passes them: one
    target per row, at least one row, a positive batch size.  What the
    library does with other inputs and the order in which it visits the
    rows are not described; the rows are taken here in the order given. *)
Definition trainer_fit (t : Trainer) (w : Weights) (X_text : list (list Z))
           (target : list Z) (n_epochs batch_size : nat)
  : Weights * list StepReport :=
  run_epochs t n_epochs 1 (batches batch_size (zip X_text target)) w.

(** Modelled from the spec: [trainer.predict_proba(X_text=...)], not
    among the sources: for every row one probability per class, [pred_dim]
    of them. *)
Definition predict_proba (t : Trainer) (w : Weights) (X_text : list (list Z))
  : list (list float) :=
  map (fun x => map (class_proba w x) (seq 0 (pred_dim (model t)))) X_text.

End Training.

End WideDeepLib.

Export WideDeepLib.

(** ** The cleaning cells of the notebook *)

Module Notebook.

Definition space : ascii := " "%char.
Definition underscore : ascii := "_"%char.

(** The columns of the frame [load_womens_ecommerce(as_frame=True)]
    returns, as the notebook prints them. *)
Definition womens_ecommerce_columns : list string :=
  ["Clothing ID"; "Age"; "Title"; "Review Text"; "Rating";
   "Recommended IND"; "Positive Feedback Count"; "Division Name";
   "Department Name"; "Class Name"].

(** [c.replace(" ", "_").lower()] *)
Definition rename_column (c : string) : string :=
  lower (replace_char space underscore c).

(** [df["rating"] = (df["rating"] - 1).astype("int64")] *)
Definition shift_rating (df : DataFrame) : result DataFrame :=
  s ← getitem df "rating";
  s ← series_sub s 1;
  s ← astype_int64 s;
  setitem df "rating" s.

(** The cell "Let's do some mild preprocessing". *)
Definition cell5 (df : DataFrame) : result DataFrame :=
  df ← set_columns df (map rename_column (columns df));
  (* classes from [0,num_class) *)
  df ← shift_rating df;
  (* group reviews with 1 and 2 scores into one class *)
  s ← getattr df "rating";
  df ← loc_set df (series_eq s 0) "rating" (CInt 1);
  (* and back again to [0,num_class) *)
  shift_rating df.

(** [lambda x: len(x.split(" "))]; only a string has [split]. *)
Definition review_length (x : Cell) : result Cell :=
  match x with
  | CStr s => Ok (CInt (Z.of_nat (length (split space s))))
  | _ => Raise (AttributeError "split")
  end.

(** The cell "drop short reviews". *)
Definition cell6 (df : DataFrame) : result DataFrame :=
  s ← getattr df "review_text";
  df ← getitem_mask df (invert (isna s));
  s ← getattr df "review_text";
  lens ← series_apply review_length s;
  df ← setitem df "review_length" lens;
  s ← getattr df "review_length";
  mask ← series_ge s 5;
  df ← getitem_mask df mask;
  df ← drop_column df "review_length";
  Ok (reset_index df).

(** Cells 5 and 6 in sequence. *)
Definition clean (df : DataFrame) : result DataFrame :=
  df ← cell5 df;
  cell6 df.

(** [lambda x: x.sample(min(len(x), 2369))] *)
Definition sample_group (x : DataFrame) (st : RandomState)
  : result (DataFrame * RandomState) :=
  sample x (min (length (rows x)) 2369) st.

(** [df.groupby("rating", group_keys=False).apply(...)], the frame the
    final [.sample(1000)] draws from. *)
Definition balance (df : DataFrame) (st : RandomState)
  : result (DataFrame * RandomState) :=
  groupby_apply df "rating" sample_group st.

(** The subsampling cell. *)
Definition cell9 (df : DataFrame) (st : RandomState)
  : result (DataFrame * RandomState) :=
  '(d, st) ← balance df st;
  sample d 1000 st.

(** The model names the notebook lists, and the one it chooses. *)
Definition model_names : list string :=
  ["distilbert-base-uncased"; "bert-base-uncased"; "FacebookAI/roberta-base";
   "albert-base-v2"; "google/electra-base-discriminator"].

Definition model_name : string := "distilbert-base-uncased".

(** [s.tolist()] and [s.values] of an integer column. *)
Definition tolist (s : Series) : list Cell := s.

Definition int_value (c : Cell) : result Z :=
  match c with
  | CInt z => Ok z
  | _ => Raise ValueError
  end.

Definition int_values (s : Series) : result (list Z) := traverse int_value s.

(** [all(X1[0] == X2[0])] on two arrays of rows of the same width. *)
Definition first_rows_equal (X1 X2 : list (list Z)) : result bool :=
  match X1, X2 with
  | r1 :: _, r2 :: _ =>
      if length r1 =? length r2 then Ok (bool_decide (r1 = r2))
      else Raise ValueError
  | _, _ => Raise IndexError
  end.

Section Cells.
(** The tokenizers of the hub, the numeric backend, and the frames
    [train_test_split] returns are whatever they are. *)
Variable pretrained : string → Tokenizer.
Context `{B : Backend}.

(** Cell 11: the preprocessor built with [text_col] and
    [encode_params], used through [fit_transform] and [transform]. *)
Definition tokenizer1 : HFPreprocessor :=
  mkHFPreprocessor model_name (Some "review_text") 1
    (Some {| max_length := 90; padding := PadMaxLength;
             truncation := true; add_special_tokens := true |}).

Definition X_text_tr1 (train : DataFrame) : result (list (list Z)) :=
  fit_transform pretrained tokenizer1 train.

Definition X_text_te1 (test : DataFrame) : result (list (list Z)) :=
  transform pretrained tokenizer1 test.

(** Cell 12: the bare preprocessor, used through [encode]. *)
Definition tokenizer2 : HFPreprocessor :=
  mkHFPreprocessor model_name None 1 None.

Definition X_text_tr2 (train : DataFrame) : result (list (list Z)) :=
  s ← getattr train "review_text";
  encode pretrained tokenizer2 (tolist s)
    {| max_length := 90; padding := PadMaxLength;
       truncation := true; add_special_tokens := true |}.

Definition X_text_te2 (test : DataFrame) : result (list (list Z)) :=
  s ← getattr test "review_text";
  encode pretrained tokenizer2 (tolist s)
    {| max_length := 90; padding := PadMaxLength;
       truncation := true; add_special_tokens := true |}.

(** Cell 13 *)
Definition cell13 (train : DataFrame) : result bool :=
  X1 ← X_text_tr1 train;
  X2 ← X_text_tr2 train;
  first_rows_equal X1 X2.

(** Cell 14 *)
Definition hf_model : HFModel := mkHFModel model_name.

(** Cell 15: the model, the trainer and the training call. *)
Definition wd_model : WideDeep :=
  {| wide := None; deeptabular := None;
     deeptext := Some (TextBranch hf_model); deepimage := None;
     pred_dim := 4 |}.

Definition trainer : Trainer :=
  {| model := wd_model; objective := "multiclass";
     metrics := [Accuracy; F1Score true] |}.

Definition cell15 (w0 : Weights) (train : DataFrame)
  : result (Weights * list StepReport) :=
  X ← X_text_tr2 train;
  s ← getattr train "rating";
  target ← int_values s;
  Ok (trainer_fit trainer w0 X target 1 64).

(** Cell 17: prediction and the two scores. *)
Definition pred_text_class (w : Weights) (X_te : list (list Z)) : list Z :=
  map (fun row => Z.of_nat (argmax row)) (predict_proba trainer w X_te).

Definition cell17 (w : Weights) (test : DataFrame) : result (float * float) :=
  X ← X_text_te2 test;
  s ← getattr test "rating";
  y ← int_values s;
  acc_text ← accuracy_score y (pred_text_class w X);
  f1_text ← f1_score "weighted" y (pred_text_class w X);
  Ok (acc_text, f1_text).

End Cells.

End Notebook.

Export Notebook.


(** ** Notions used in the statements *)

(** Rewriting one column cell by cell. *)
Definition update_col (p : nat) (f : Cell → Cell) (df : DataFrame) : DataFrame :=
  mkFrame (columns df) (map (fun r => set_cell p (f (cell_at p r)) r) (rows df)).

(** Column [p] is an integer column. *)
Definition int_column (p : nat) (rs : list Row) : Prop :=
  Forall (fun r => ∃ z, cells r !! p = Some (CInt z)) rs.

Definition int_cell (f : Cell → Cell) : Prop := ∀ z, ∃ z', f (CInt z) = CInt z'.

(** What [shift_rating] does to a cell of the rating column. *)
Definition shifted (c : Cell) : Cell :=
  match c with
  | CInt z => CInt (wrap64 (wrap64 (z - 1)))
  | _ => c
  end.

(** What [df.loc[df.rating == 0, "rating"] = 1] does to it. *)
Definition grouped (c : Cell) : Cell :=
  if bool_decide (c = CInt 0) then CInt 1 else c.

(** The three steps of cell 5 on one rating cell. *)
Definition remap_cell (c : Cell) : Cell := shifted (grouped (shifted c)).

(** The class labels of the model: [0 .. num_class - 1]. *)
Definition num_class : Z := 4.

(** The rows cell 6 keeps: the review text at column [tp] is a string
    that [split(" ")] cuts into at least five pieces. *)
Definition long_review (tp : nat) (r : Row) : bool :=
  match cell_at tp r with
  | CStr s => 5 <=? length (split space s)
  | _ => false
  end.

(** The same rows told by the spaces of the text: a string with at least
    four of them. *)
Definition four_spaces (tp : nat) (r : Row) : bool :=
  match cell_at tp r with
  | CStr s => 4 <=? count_char space s
  | _ => false
  end.

(** Following the claim's words, not the code: the space-separated words
    of a text are its maximal runs of characters other than a space;
    [in_word] tells whether the character before belongs to a word. *)
Fixpoint word_count_from (in_word : bool) (s : string) : nat :=
  match s with
  | EmptyString => 0
  | String c s' =>
      if Ascii.eqb c space then word_count_from false s'
      else (if in_word then 0 else 1) + word_count_from true s'
  end.

Definition word_count (s : string) : nat := word_count_from false s.

(** Column [tp] holds strings and missing values only. *)
Definition is_text (c : Cell) : bool :=
  match c with
  | CInt _ => false
  | CStr _ | CNaN => true
  end.

Definition text_column (tp : nat) (rs : list Row) : Prop :=
  Forall (fun r => is_text (cell_at tp r) = true) rs.

(** Number of rows of rating class [z]. *)
Definition class_count (p : nat) (z : Z) (rs : list Row) : nat :=
  length (group_rows p z rs).

(** The function the notebook applies to every group, for any cap. *)
Definition draw_group (cap : nat) (x : DataFrame) (st : RandomState)
  : result (DataFrame * RandomState) :=
  sample x (min (length (rows x)) cap) st.

(** The frame a grouped draw of at most [cap] rows per class returns:
    its size and its rows, draw by draw. *)
Definition balanced_size (cap p : nat) (rs : list Row) (keys : list Z) : nat :=
  sum_list_with (fun key => min (class_count p key rs) cap) keys.

Fixpoint balanced_rows (cap p : nat) (rs : list Row) (g : nat → nat) (k : nat)
         (keys : list Z) : list Row :=
  match keys with
  | [] => []
  | key :: keys' =>
      let n := min (class_count p key rs) cap in
      choose n g k (group_rows p key rs) ++ balanced_rows cap p rs g (k + n) keys'
  end.

(** The comparison of two probabilities is a strict order in which
    values that are not below one another are interchangeable, as [<] is
    on floating-point numbers none of which is NaN. *)
Definition ordered_floats `{B : Backend} : Prop :=
  (∀ a, float_ltb a a = false)
  ∧ (∀ a b c, float_ltb a b = true → float_ltb b c = true → float_ltb a c = true)
  ∧ (∀ a b c, float_ltb a b = true → float_ltb a c = true ∨ float_ltb c b = true).

(** Position [c] holds a largest entry of the row and is the first that
    does: no entry is above it and every entry before it is below it. *)
Definition first_largest `{B : Backend} (row : list float) (c : nat) : Prop :=
  ∃ vc, row !! c = Some vc
    ∧ ∀ j v, row !! j = Some v →
        float_ltb vc v = false ∧ (j < c → float_ltb v vc = true).

(** One optimisation step on every batch in turn. *)
Definition steps `{B : Backend} (w : Weights) (bs : list (list (list Z * Z)))
  : Weights :=
  foldl (fun w b => (step_fn w b).1) w bs.

(** The configuration of every tokenizer call of the notebook. *)
Definition params90 : EncodeParams :=
  {| max_length := 90; padding := PadMaxLength;
     truncation := true; add_special_tokens := true |}.

(** ** Small frames to run the cells on *)

Module Samples.

(** Four reviews under the columns of the loaded frame: one with every
    value present, one without a title whose text has one space, one
    without a review text, and one without a title whose text has four
    spaces. *)
Definition row0 : Row :=
  mkRow 7004 [CInt 862; CInt 43; CStr "Cute and feminine";
              CStr "Loved this sweater wrap and bought it in both";
              CInt 5; CInt 1; CInt 2;
              CStr "General"; CStr "Tops"; CStr "Knits"].
Definition row1 : Row :=
  mkRow 12508 [CInt 975; CInt 66; CNaN;
               CStr "Love it"; CInt 1; CInt 1; CInt 3;
               CStr "General"; CStr "Jackets"; CStr "Jackets"].
Definition row2 : Row :=
  mkRow 10288 [CInt 950; CInt 41; CStr "Perfect for fall";
               CNaN; CInt 2; CInt 1; CInt 0;
               CStr "General"; CStr "Tops"; CStr "Sweaters"].
Definition row3 : Row :=
  mkRow 3 [CInt 950; CInt 41; CNaN;
           CStr "a  b  c"; CInt 3; CInt 1; CInt 0;
           CStr "General"; CStr "Tops"; CStr "Sweaters"].

Definition df0 : DataFrame :=
  mkFrame womens_ecommerce_columns [row0; row1; row2; row3].

(** The same rows under the renamed columns, with the ratings cell 5
    leaves. *)
Definition df1 : DataFrame :=
  mkFrame (map rename_column womens_ecommerce_columns)
          (map (fun r => set_cell 4 (remap_cell (cell_at 4 r)) r)
               [row0; row1; row2; row3]).

(** A frame of 1100 reviews in two rating classes, and a random state. *)
Definition big : DataFrame :=
  mkFrame ["rating"; "review_text"]
          (replicate 600 (mkRow 0 [CInt 3; CStr "fits well and looks great on"])
           ++ replicate 500 (mkRow 1 [CInt 0; CStr "runs small and the fabric is thin"])).

Definition st0 : RandomState := mkRandom (fun k => 7 * k + 2) 0.

(** The two reviews of [df0] that survive cleaning. *)
Definition df2 : DataFrame :=
  mkFrame (map rename_column womens_ecommerce_columns)
          [mkRow 0 [CInt 862; CInt 43; CStr "Cute and feminine";
                    CStr "Loved this sweater wrap and bought it in both";
                    CInt 3; CInt 1; CInt 2;
                    CStr "General"; CStr "Tops"; CStr "Knits"];
           mkRow 1 [CInt 950; CInt 41; CNaN;
                    CStr "a  b  c"; CInt 1; CInt 1; CInt 0;
                    CStr "General"; CStr "Tops"; CStr "Sweaters"]].

(** A toy hub: one id per space-separated piece. *)
Definition toy_tokenizer : Tokenizer :=
  {| subwords := fun s => map (fun w => (1000 + Z.of_nat (String.length w))%Z)
                              (split space s);
     cls_id := 101; sep_id := 102; pad_id := 0 |}.

Definition hub (name : string) : Tokenizer := toy_tokenizer.

(** A toy backend over the integers. *)
Definition count_equal (y p : list Z) : Z :=
  Z.of_nat (length (List.filter (fun '(a, b) => (a =? b)%Z) (zip y p))).

Definition toy_backend : Backend :=
  {| float := Z;
     float_ltb := Z.ltb;
     Weights := Z;
     step_fn := fun w b => ((w + 1)%Z, Z.of_nat (length b));
     metric_fn := fun name w b => w;
     class_proba := fun w x j => ((Z.of_nat j * w + Z.of_nat (length x)) mod 3)%Z;
     accuracy_score := fun y p =>
       if length y =? length p then Ok (count_equal y p) else Raise ValueError;
     f1_score := fun average y p =>
       if length y =? length p then Ok (count_equal y p) else Raise ValueError |}.

End Samples.

(** ** Further cells and notions *)

(** [sep.join(pieces)] *)
Fixpoint join (sep : ascii) (pieces : list string) : string :=
  match pieces with
  | [] => EmptyString
  | w :: ws =>
      match ws with
      | [] => w
      | _ :: _ => String.append w (String sep (join sep ws))
      end
  end.

(** The characters of a string. *)
Definition chars (s : string) : list ascii := list_ascii_of_string s.

(** An upper-case ASCII letter. *)
Definition is_upper (c : ascii) : bool :=
  let n := nat_of_ascii c in (65 <=? n) && (n <=? 90).

(** A value that is not missing. *)
Definition notna (c : Cell) : bool :=
  match c with CNaN => false | _ => true end.

(** How often a value occurs in a series. *)
Definition count_value (c : Cell) (s : Series) : nat :=
  length (List.filter (fun x => bool_decide (x = c)) s).

(** The order of [value_counts]: the more frequent value first. *)
Definition more_frequent (a b : Cell * nat) : Prop := snd b ≤ snd a.

#[export] Instance more_frequent_dec : RelDecision more_frequent.
Proof. intros a b. unfold more_frequent. apply _. Defined.

(** [s.value_counts()]: every distinct value with the number of its
    occurrences, the most frequent first; missing values are not counted.
    Pandas leaves the order of values that occur equally often open; here
    they come in the order the sort leaves them. *)
Definition value_counts (s : Series) : list (Cell * nat) :=
  merge_sort more_frequent
    (map (fun c => (c, count_value c s)) (remove_dups (List.filter notna s))).

(** Cell 8: [df.rating.value_counts()] *)
Definition cell8 (df : DataFrame) : result (list (Cell * nat)) :=
  s ← getattr df "rating";
  Ok (value_counts s).

(** The index labels of a frame. *)
Definition labels (df : DataFrame) : list Z := map label (rows df).

(** The rating of a row is one of the class labels. *)
Definition class_label (p : nat) (r : Row) : Prop :=
  ∃ c, cell_at p r = CInt c ∧ (0 ≤ c < num_class)%Z.

(** A label of ASCII characters.  Strings are byte strings here, and
    [lower] is Python's [str.lower] on such labels only. *)
Definition is_ascii_label (s : string) : bool :=
  forallb (fun c => nat_of_ascii c <? 128) (chars s).

(** What renaming does to one character of a label. *)
Definition rename_char (c : ascii) : ascii :=
  lower_char (if Ascii.eqb c space then underscore else c).

(** The kinds of cell. *)
Definition is_int (c : Cell) : bool :=
  match c with CInt _ => true | _ => false end.

Definition is_str (c : Cell) : bool :=
  match c with CStr _ => true | _ => false end.

(** The range of [int64]. *)
Definition int64_min : Z := (- 2 ^ 63)%Z.
Definition int64_max : Z := (2 ^ 63 - 1)%Z.

(** A cell of a column of [int64] integers, strings and missing values:
    an integer in it fits [int64]. *)
Definition fits_int64 (c : Cell) : bool :=
  match c with
  | CInt z => (int64_min <=? z)%Z && (z <=? int64_max)%Z
  | _ => true
  end.

(** The rating of a row is one of the given group keys. *)
Definition in_keys (p : nat) (keys : list Z) (r : Row) : bool :=
  existsb (fun key => bool_decide (cell_at p r = CInt key)) keys.

(** Frames that lack a column the cells ask for. *)
Module Frames.

Definition no_rating : DataFrame :=
  mkFrame ["Review Text"]
          [mkRow 0 [CStr "Loved this sweater wrap and bought it in both"]].

Definition no_text : DataFrame :=
  mkFrame ["Title"; "Rating"]
          [mkRow 0 [CStr "Cute and feminine"; CInt 5];
           mkRow 1 [CNaN; CInt 2]].

End Frames.

(** ** Facts about the embedding *)

Section ResultFacts.
Context {A B : Type}.

Lemma bind_Ok (a : A) (k : A → result B) : (Ok a ≫= k) = k a.
Proof. reflexivity. Qed.

Lemma bind_inv_Ok (m : result A) (k : A → result B) (b : B) :
  m ≫= k = Ok b → ∃ a, m = Ok a ∧ k a = Ok b.
Proof. destruct m as [a|e]; simpl; [eauto | discriminate]. Qed.

Lemma traverse_map (f : A → result B) (g : A → B) (xs : list A) :
  Forall (fun x => f x = Ok (g x)) xs → traverse f xs = Ok (map g xs).
Proof.
  induction 1 as [|x xs Hx _ IH]; simpl; [reflexivity|].
  rewrite Hx, IH. reflexivity.
Qed.

Lemma traverse_inv_Ok (f : A → result B) (xs : list A) (ys : list B) :
  traverse f xs = Ok ys → Forall2 (fun x y => f x = Ok y) xs ys.
Proof.
  revert ys. induction xs as [|x xs IH]; simpl; intros ys H.
  - injection H as <-. constructor.
  - destruct (f x) as [y|e] eqn:Hx; simpl in H; [|discriminate].
    destruct (traverse f xs) as [ys'|e] eqn:Hxs; simpl in H; [|discriminate].
    injection H as <-. constructor; auto.
Qed.

End ResultFacts.

Lemma Ok_pair_inv {A B} (a a' : A) (b b' : B) :
  Ok (a, b) = Ok (a', b') → a = a' ∧ b = b'.
Proof. intros [= -> ->]. done. Qed.

Lemma zip_with_map_r {A B C} (f : A → B → C) (g : A → B) (l : list A) :
  zip_with f l (map g l) = map (fun x => f x (g x)) l.
Proof. induction l; simpl; congruence. Qed.

Lemma select_map_mask {A} (P : A → bool) (l : list A) :
  select l (map P l) = List.filter P l.
Proof. induction l as [|x l IH]; simpl; [reflexivity|]. rewrite IH. reflexivity. Qed.

Lemma cell_at_lookup p r c : cells r !! p = Some c → cell_at p r = c.
Proof. unfold cell_at. intros ->. reflexivity. Qed.

Lemma cell_at_set_cell p v r :
  p < length (cells r) → cell_at p (set_cell p v r) = v.
Proof.
  intros Hp. unfold cell_at, set_cell. simpl.
  rewrite list_lookup_insert_eq by done. reflexivity.
Qed.

Lemma cell_at_set_cell_ne p q v r :
  p ≠ q → cell_at q (set_cell p v r) = cell_at q r.
Proof.
  intros Hne. unfold cell_at, set_cell. simpl.
  rewrite list_lookup_insert_ne by done. reflexivity.
Qed.

Lemma set_cell_id p r : set_cell p (cell_at p r) r = r.
Proof.
  destruct r as [l cs]. unfold set_cell, cell_at. simpl. f_equal.
  destruct (cs !! p) as [c|] eqn:E; simpl.
  - by apply list_insert_id.
  - apply list_insert_ge. by apply lookup_ge_None.
Qed.

Lemma set_cell_set_cell p v w r : set_cell p v (set_cell p w r) = set_cell p v r.
Proof.
  unfold set_cell. simpl. f_equal. apply list_insert_insert_eq.
Qed.

Lemma update_col_compose p f g df :
  int_column p (rows df) → int_cell f →
  update_col p g (update_col p f df) = update_col p (g ∘ f) df.
Proof.
  intros Hint Hf. unfold update_col. simpl. f_equal.
  rewrite map_map. apply map_ext_Forall.
  eapply Forall_impl; [exact Hint|]. intros r [z Hz]. simpl.
  rewrite set_cell_set_cell. f_equal. f_equal.
  apply cell_at_set_cell. by eapply lookup_lt_Some.
Qed.

Lemma update_col_int p f df :
  int_column p (rows df) → int_cell f → int_column p (rows (update_col p f df)).
Proof.
  intros Hint Hf. unfold update_col, int_column. simpl.
  rewrite Forall_map. eapply Forall_impl; [exact Hint|].
  intros r [z Hz]. simpl. rewrite (cell_at_lookup _ _ _ Hz).
  destruct (Hf z) as [z' ->]. exists z'.
  apply list_lookup_insert_eq. by eapply lookup_lt_Some.
Qed.

(** *** Cell 5: renaming and the rating remap *)

Lemma shift_rating_spec df p :
  col_pos "rating" (columns df) = Some p →
  int_column p (rows df) →
  shift_rating df = Ok (update_col p shifted df).
Proof.
  intros Hp Hint. unfold shift_rating, getitem. rewrite Hp, bind_Ok.
  unfold series_sub.
  rewrite (traverse_map _ (fun c => match c with
                                    | CInt z => CInt (wrap64 (z - 1))
                                    | _ => CNaN end)).
  2:{ rewrite Forall_map. eapply Forall_impl; [exact Hint|].
      intros r [z Hz]. simpl. by rewrite (cell_at_lookup _ _ _ Hz). }
  rewrite bind_Ok. unfold astype_int64.
  rewrite (traverse_map _ (fun c => match c with
                                    | CInt z => CInt (wrap64 z)
                                    | _ => CNaN end)), bind_Ok.
  2:{ rewrite !Forall_map. eapply Forall_impl; [exact Hint|].
      intros r [z Hz]. simpl. by rewrite (cell_at_lookup _ _ _ Hz). }
  unfold setitem. rewrite !length_map, Nat.eqb_refl, Hp. simpl.
  unfold update_col. f_equal. f_equal.
  rewrite !map_map, zip_with_map_r. apply map_ext_Forall.
  eapply Forall_impl; [exact Hint|]. intros r [z Hz]. simpl.
  by rewrite (cell_at_lookup _ _ _ Hz).
Qed.

Lemma getattr_spec df name p :
  col_pos name (columns df) = Some p →
  getattr df name = Ok (map (cell_at p) (rows df)).
Proof. intros Hp. unfold getattr. by rewrite Hp. Qed.

Lemma group_rating_spec df p :
  col_pos "rating" (columns df) = Some p →
  loc_set df (series_eq (map (cell_at p) (rows df)) 0) "rating" (CInt 1)
  = Ok (update_col p grouped df).
Proof.
  intros Hp.
  unfold loc_set, series_eq. rewrite !length_map, Nat.eqb_refl, Hp. simpl.
  unfold update_col. f_equal. f_equal.
  rewrite map_map, zip_with_map_r. apply map_ext. intros r.
  unfold grouped. destruct (bool_decide _); [reflexivity|].
  symmetry. apply set_cell_id.
Qed.

Lemma shifted_int : int_cell shifted.
Proof. intros z. simpl. eauto. Qed.

Lemma grouped_int : int_cell grouped.
Proof. intros z. unfold grouped. destruct (bool_decide _); eauto. Qed.

Lemma cell5_spec df p :
  col_pos "rating" (map rename_column (columns df)) = Some p →
  int_column p (rows df) →
  cell5 df
  = Ok (update_col p remap_cell (mkFrame (map rename_column (columns df)) (rows df))).
Proof.
  intros Hp Hint. unfold cell5, set_columns.
  rewrite length_map, Nat.eqb_refl. simpl negb. cbv iota. rewrite bind_Ok.
  set (df1 := mkFrame _ _).
  assert (Hint1 : int_column p (rows df1)) by exact Hint.
  rewrite (shift_rating_spec df1 p Hp Hint1), bind_Ok.
  rewrite (getattr_spec (update_col p shifted df1) _ p Hp), bind_Ok.
  rewrite (group_rating_spec (update_col p shifted df1) p Hp), bind_Ok.
  rewrite (update_col_compose _ _ _ _ Hint1 shifted_int).
  rewrite (shift_rating_spec (update_col p (grouped ∘ shifted) df1) p Hp).
  2:{ apply update_col_int; [exact Hint1|].
      intros z. unfold compose. destruct (shifted_int z) as [z' ->]. apply grouped_int. }
  rewrite update_col_compose; [reflexivity|exact Hint1|].
  intros z. unfold compose. destruct (shifted_int z) as [z' ->]. apply grouped_int.
Qed.

Lemma remap_cell_rating (z : Z) :
  (1 ≤ z ≤ 5)%Z → remap_cell (CInt z) = CInt (Z.max (z - 2) 0).
Proof.
  intros Hz.
  assert (z = 1 ∨ z = 2 ∨ z = 3 ∨ z = 4 ∨ z = 5)%Z as Hc by lia.
  destruct Hc as [->|[->|[->|[->| ->]]]]; reflexivity.
Qed.

(** C2: cell 5 sends every original rating [z] of 1..5 to [max (z - 2) 0],
    so ratings 1 and 2 share class 0, ratings 3, 4, 5 become classes 1, 2, 3,
    and every remapped rating lies in [0, num_class).  The cell returns
    whenever the rating column holds integers. *)
Theorem C2_rating_remap (df : DataFrame) (p : nat) :
  NoDup (map rename_column (columns df)) →
  col_pos "rating" (map rename_column (columns df)) = Some p →
  int_column p (rows df) →
  ∃ df', cell5 df = Ok df'
    ∧ col_pos "rating" (columns df') = Some p
    ∧ length (rows df') = length (rows df)
    ∧ ∀ (i : nat) (r : Row) (z : Z),
        rows df !! i = Some r → cells r !! p = Some (CInt z) → (1 ≤ z ≤ 5)%Z →
        ∃ r', rows df' !! i = Some r'
          ∧ cells r' !! p = Some (CInt (Z.max (z - 2) 0))
          ∧ (0 ≤ Z.max (z - 2) 0 < num_class)%Z
          ∧ (Z.max (z - 2) 0 = 0 ↔ z = 1 ∨ z = 2)%Z.
Proof.
  intros _ Hp Hint. eexists. split; [exact (cell5_spec df p Hp Hint)|].
  split; [exact Hp|]. split; [simpl; by rewrite length_map|].
  intros i r z Hr Hz Hrange. simpl.
  exists (set_cell p (remap_cell (cell_at p r)) r). split.
  - rewrite list_lookup_fmap, Hr. reflexivity.
  - rewrite (cell_at_lookup _ _ _ Hz), (remap_cell_rating z Hrange). simpl.
    split; [|unfold num_class; lia].
    apply list_lookup_insert_eq. by eapply lookup_lt_Some.
Qed.

Lemma C2_rating_remap_witness :
  ∃ df', cell5 Samples.df0 = Ok df'
    ∧ col_pos "rating" (columns df') = Some 4
    ∧ length (rows df') = length (rows Samples.df0)
    ∧ ∀ (i : nat) (r : Row) (z : Z),
        rows Samples.df0 !! i = Some r → cells r !! 4 = Some (CInt z) → (1 ≤ z ≤ 5)%Z →
        ∃ r', rows df' !! i = Some r'
          ∧ cells r' !! 4 = Some (CInt (Z.max (z - 2) 0))
          ∧ (0 ≤ Z.max (z - 2) 0 < num_class)%Z
          ∧ (Z.max (z - 2) 0 = 0 ↔ z = 1 ∨ z = 2)%Z.
Proof.
  apply (C2_rating_remap Samples.df0 4).
  - apply (bool_decide_unpack _). vm_compute. exact I.
  - reflexivity.
  - unfold int_column. simpl. repeat constructor; eexists; reflexivity.
Defined.

(** *** Cell 6: dropping the short reviews *)

Lemma col_pos_app_fresh name cols :
  col_pos name cols = None → col_pos name (cols ++ [name]) = Some (length cols).
Proof.
  induction cols as [|c cols IH]; simpl.
  - by rewrite String.eqb_refl.
  - destruct (String.eqb c name); [discriminate|].
    destruct (col_pos name cols); [discriminate|]. intros _. by rewrite IH.
Qed.

Lemma filter_filter_bool {A} (P Q : A → bool) (l : list A) :
  List.filter Q (List.filter P l) = List.filter (fun x => P x && Q x) l.
Proof.
  induction l as [|x l IH]; simpl; [reflexivity|].
  destruct (P x); simpl; [destruct (Q x)|]; by rewrite IH.
Qed.

Lemma filter_ext_Forall {A} (P Q : A → bool) (l : list A) :
  Forall (fun x => P x = Q x) l → List.filter P l = List.filter Q l.
Proof. induction 1 as [|x l Hx _ IH]; simpl; [done|]. by rewrite Hx, IH. Qed.

Lemma Forall_filter_bool {A} (P : A → Prop) (f : A → bool) (l : list A) :
  Forall P l → Forall P (List.filter f l).
Proof. induction 1; simpl; [constructor|]. destruct (f x); auto. Qed.

Lemma Forall_filter_both {A} (P : A → Prop) (f : A → bool) (l : list A) :
  Forall P l → Forall (fun x => P x ∧ f x = true) (List.filter f l).
Proof.
  induction 1 as [|x l Hx _ IH]; simpl; [constructor|].
  destruct (f x) eqn:E; auto.
Qed.

Lemma Forall_filter_true {A} (f : A → bool) (l : list A) :
  Forall (fun x => f x = true) (List.filter f l).
Proof.
  induction l as [|x l IH]; simpl; [constructor|].
  destruct (f x) eqn:E; auto.
Qed.

Lemma select_map_map {A B} (g : A → B) (h : A → bool) (l : list A) :
  select (map g l) (map h l) = map g (List.filter h l).
Proof.
  induction l as [|x l IH]; simpl; [reflexivity|].
  destruct (h x); simpl; by rewrite IH.
Qed.

Lemma delete_app_last {A} (l : list A) (x : A) : delete (length l) (l ++ [x]) = l.
Proof. induction l as [|y l IH]; simpl; [reflexivity|]. by rewrite IH. Qed.

Lemma map_id_Forall {A} (f : A → A) (l : list A) :
  Forall (fun x => f x = x) l → map f l = l.
Proof. induction 1; simpl; congruence. Qed.

Lemma cell6_spec df tp :
  rectangular df →
  col_pos "review_text" (columns df) = Some tp →
  col_pos "review_length" (columns df) = None →
  text_column tp (rows df) →
  cell6 df
  = Ok (reset_index (mkFrame (columns df) (List.filter (long_review tp) (rows df)))).
Proof.
  intros Hrect Htp Hfresh Htext. unfold cell6.
  rewrite (getattr_spec df _ tp Htp), bind_Ok.
  unfold getitem_mask, invert, isna. rewrite !length_map, Nat.eqb_refl. simpl negb. cbv iota.
  rewrite bind_Ok, !map_map, select_map_mask.
  set (present := fun r : Row => negb (bool_decide (cell_at tp r = CNaN))).
  set (df1 := mkFrame (columns df) (List.filter present (rows df))).
  rewrite (getattr_spec df1 _ tp Htp), bind_Ok.
  set (words := fun r : Row => match cell_at tp r with
                                | CStr s => Z.of_nat (length (split space s))
                                | _ => 0%Z end).
  assert (Hpres : Forall (fun r => ∃ s, cell_at tp r = CStr s) (rows df1)).
  { simpl. eapply Forall_impl; [exact (Forall_filter_both _ present _ Htext)|].
    intros r. unfold present.
    destruct (cell_at tp r); intros [E Hp]; [discriminate|eauto|discriminate]. }
  assert (Hrect1 : Forall (fun r => length (cells r) = length (columns df)) (rows df1)).
  { simpl. by apply Forall_filter_bool. }
  unfold series_apply.
  rewrite (traverse_map _ (fun c => match c with
                                    | CStr s => CInt (Z.of_nat (length (split space s)))
                                    | _ => CNaN end)), bind_Ok.
  2:{ rewrite Forall_map. eapply Forall_impl; [exact Hpres|].
      intros r [s ->]. reflexivity. }
  unfold setitem. rewrite !length_map, Nat.eqb_refl. simpl negb. cbv iota.
  change (columns df1) with (columns df). rewrite Hfresh, bind_Ok.
  rewrite map_map, zip_with_map_r.
  match goal with |- context [mkFrame ?c (map ?g (rows df1))] =>
    set (df2 := mkFrame c (map g (rows df1))) end.
  rewrite (getattr_spec df2 _ (length (columns df)) (col_pos_app_fresh _ _ Hfresh)), bind_Ok.
  assert (Hboth : Forall (fun r => (∃ s, cell_at tp r = CStr s)
                                   ∧ length (cells r) = length (columns df)) (rows df1))
    by (apply Forall_and; split; assumption).
  assert (Hlens : map (cell_at (length (columns df))) (rows df2)
                  = map (fun r => CInt (words r)) (rows df1)).
  { unfold df2. simpl rows. rewrite map_map. apply map_ext_Forall.
    eapply Forall_impl; [exact Hboth|]. intros r [[s Hs] Hlen].
    unfold cell_at at 1. simpl. rewrite lookup_app_r by lia.
    rewrite Hlen, Nat.sub_diag. simpl. unfold words. by rewrite Hs. }
  rewrite Hlens. unfold series_ge.
  rewrite (traverse_map _ (fun c => match c with CInt z => (5 <=? z)%Z | _ => false end)), bind_Ok.
  2:{ rewrite Forall_map. by apply Forall_true. }
  rewrite map_map. unfold getitem_mask.
  rewrite length_map. unfold df2 at 1. simpl rows. rewrite length_map, Nat.eqb_refl.
  simpl negb. cbv iota. rewrite bind_Ok.
  rewrite select_map_map. unfold drop_column. simpl columns.
  rewrite (col_pos_app_fresh _ _ Hfresh), bind_Ok. simpl rows.
  rewrite delete_app_last, map_map. do 3 f_equal.
  unfold df1. simpl rows. rewrite filter_filter_bool.
  assert (Hkeep : Forall (fun r => (present r && (5 <=? words r)%Z) = long_review tp r) (rows df)).
  { eapply Forall_impl; [exact Htext|]. intros r. unfold present, words, long_review.
    destruct (cell_at tp r) as [z|s|]; [discriminate| |reflexivity]. intros _.
    rewrite bool_decide_eq_false_2 by done. cbn [negb andb].
    destruct (Nat.leb_spec 5 (length (split space s))); [apply Z.leb_le|apply Z.leb_gt]; lia. }
  rewrite (filter_ext_Forall _ _ _ Hkeep).
  apply map_id_Forall, Forall_filter_bool.
  eapply Forall_impl; [exact Hrect|]. intros [l cs] Hlen. simpl in *.
  by rewrite <- Hlen, delete_app_last.
Qed.


Lemma split_nonempty sep s : split sep s ≠ [].
Proof.
  destruct s as [|c s]; simpl; [done|].
  destruct (Ascii.eqb c sep); [done|]. by destruct (split sep s).
Qed.

(** [len(x.split(" "))] is one more than the number of spaces of [x]. *)
Lemma length_split sep s : length (split sep s) = S (count_char sep s).
Proof.
  induction s as [|c s IH]; simpl; [reflexivity|].
  destruct (Ascii.eqb c sep); simpl; [by rewrite IH|].
  pose proof (split_nonempty sep s).
  destruct (split sep s); [done|]. simpl in *. lia.
Qed.

Lemma long_review_iff tp r :
  long_review tp r = true
  ↔ ∃ s, cell_at tp r = CStr s ∧ 5 ≤ length (split space s).
Proof.
  unfold long_review. split.
  - destruct (cell_at tp r) as [z|s|]; [done| |done].
    intros H. exists s. split; [done|]. by apply Nat.leb_le.
  - intros (s & -> & H). by apply Nat.leb_le.
Qed.

Lemma map_cells_reset (f : nat → Z) (rs : list Row) :
  map cells (imap (fun i r => mkRow (f i) (cells r)) rs) = map cells rs.
Proof.
  revert f. induction rs as [|r rs IH]; intros f; simpl; [reflexivity|].
  f_equal. apply (IH (f ∘ S)).
Qed.

Lemma rows_reset_index df :
  map cells (rows (reset_index df)) = map cells (rows df).
Proof. unfold reset_index. simpl. apply map_cells_reset. Qed.

Lemma word_count_from_le b s :
  word_count_from b s ≤ (if b then 0 else 1) + count_char space s.
Proof.
  revert b. induction s as [|c s IH]; intros b; cbn [word_count_from count_char].
  - lia.
  - destruct (Ascii.eqb c space).
    + specialize (IH false). cbn in IH. destruct b; lia.
    + specialize (IH true). cbn in IH. destruct b; lia.
Qed.

(** A text has at most one word more than it has spaces. *)
Lemma word_count_le s : word_count s ≤ S (count_char space s).
Proof. apply (word_count_from_le false). Qed.

Lemma long_review_four_spaces tp r : long_review tp r = four_spaces tp r.
Proof.
  unfold long_review, four_spaces. destruct (cell_at tp r) as [z|s|]; try done.
  rewrite length_split. reflexivity.
Qed.

(** C3 as stated fails: cell 6 keeps the review "a  b  c" of the sample
    frame, which has three words; its two double spaces make four spaces,
    and [split(" ")] cuts it into five pieces, two of them empty. *)
Lemma C3_three_words_kept :
  cell6 Samples.df1 = Ok Samples.df2
  ∧ Exists (fun r => cell_at 3 r = CStr "a  b  c") (rows Samples.df2)
  ∧ word_count "a  b  c" = 3
  ∧ split space "a  b  c" = ["a"; ""; "b"; ""; "c"]
  ∧ ¬ Forall (fun r => ∃ s, cell_at 3 r = CStr s ∧ 5 ≤ word_count s)
             (rows Samples.df2).
Proof.
  split; [vm_compute; reflexivity|]. split; [right; left; reflexivity|].
  split; [reflexivity|]. split; [reflexivity|].
  intros H. unfold Samples.df2 in H. cbn [rows] in H.
  apply Forall_cons in H as [_ H]. apply Forall_cons in H as [(s & Hs & Hw) _].
  vm_compute in Hs. injection Hs as <-. vm_compute in Hw. lia.
Qed.

(** C3, amended: after cell 6 every remaining row has a review text that
    is a string (not missing) with at least four spaces, that is, a text
    [split(" ")] cuts into at least five pieces; the rows that remain are
    exactly those rows of the input, in order, so a row whose text is
    missing or has fewer than four spaces is dropped; and the helper
    column [review_length] is not a column of the result.  A text of at
    least five words has at least four spaces and is kept; a text of fewer
    words is kept as well when it has four spaces. *)
Theorem C3_short_reviews_dropped (df : DataFrame) (tp : nat) :
  NoDup (columns df) →
  rectangular df →
  col_pos "review_text" (columns df) = Some tp →
  col_pos "review_length" (columns df) = None →
  text_column tp (rows df) →
  ∃ df', cell6 df = Ok df'
    ∧ columns df' = columns df
    ∧ col_pos "review_length" (columns df') = None
    ∧ map cells (rows df') = map cells (List.filter (four_spaces tp) (rows df))
    ∧ Forall (fun r' => ∃ s, cells r' !! tp = Some (CStr s)
                          ∧ 4 ≤ count_char space s)
             (rows df')
    ∧ (∀ r, four_spaces tp r = false
            ↔ (cell_at tp r = CNaN ∨ (∃ z, cell_at tp r = CInt z)
               ∨ ∃ s, cell_at tp r = CStr s ∧ count_char space s < 4))
    ∧ ∀ r s, cell_at tp r = CStr s →
             word_count s ≤ S (count_char space s)
             ∧ (5 ≤ word_count s → four_spaces tp r = true).
Proof.
  intros _ Hrect Htp Hfresh Htext.
  assert (Hrows : List.filter (long_review tp) (rows df)
                  = List.filter (four_spaces tp) (rows df)).
  { apply filter_ext. intros r. apply long_review_four_spaces. }
  eexists. split; [exact (cell6_spec df tp Hrect Htp Hfresh Htext)|].
  split; [reflexivity|]. split; [exact Hfresh|].
  split; [rewrite <- Hrows; apply rows_reset_index|]. split; [|split].
  - apply Forall_forall. intros r' Hr'.
    assert (Hc : cells r' ∈ map cells (rows (reset_index
                   (mkFrame (columns df) (List.filter (long_review tp) (rows df))))))
      by (apply list_elem_of_fmap; eauto).
    rewrite rows_reset_index in Hc. simpl in Hc.
    apply list_elem_of_fmap in Hc as (r & Hcs & Hr).
    apply list_elem_of_In, filter_In in Hr as [_ Hlong].
    rewrite long_review_four_spaces in Hlong. unfold four_spaces in Hlong.
    unfold cell_at in Hlong. rewrite <- Hcs in Hlong.
    destruct (cells r' !! tp) as [[z|s|]|]; simpl in Hlong; try done.
    exists s. split; [done|]. by apply Nat.leb_le.
  - intros r. unfold four_spaces.
    destruct (cell_at tp r) as [z|s|]; split; try done; eauto.
    + intros H. right. right. exists s. split; [done|]. by apply Nat.leb_gt.
    + intros [?|[[? ?]|(s' & [= <-] & H)]]; try done. by apply Nat.leb_gt.
  - intros r s Hs. pose proof (word_count_le s) as Hle. split; [exact Hle|].
    intros Hw. unfold four_spaces. rewrite Hs. apply Nat.leb_le. lia.
Qed.

Lemma C3_short_reviews_dropped_witness :
  ∃ df', cell6 Samples.df1 = Ok df'
    ∧ columns df' = columns Samples.df1
    ∧ col_pos "review_length" (columns df') = None
    ∧ map cells (rows df') = map cells (List.filter (four_spaces 3) (rows Samples.df1))
    ∧ Forall (fun r' => ∃ s, cells r' !! 3 = Some (CStr s)
                          ∧ 4 ≤ count_char space s)
             (rows df')
    ∧ (∀ r, four_spaces 3 r = false
            ↔ (cell_at 3 r = CNaN ∨ (∃ z, cell_at 3 r = CInt z)
               ∨ ∃ s, cell_at 3 r = CStr s ∧ count_char space s < 4))
    ∧ ∀ r s, cell_at 3 r = CStr s →
             word_count s ≤ S (count_char space s)
             ∧ (5 ≤ word_count s → four_spaces 3 r = true).
Proof.
  apply (C3_short_reviews_dropped Samples.df1 3).
  - apply (bool_decide_unpack _). vm_compute. exact I.
  - unfold rectangular. simpl. repeat constructor.
  - reflexivity.
  - reflexivity.
  - unfold text_column. simpl. repeat constructor.
Defined.

(** *** Cell 9: the class-balanced subsample *)

Section Choose.
Context {A : Type}.
Implicit Types (urn : list A) (g : nat → nat).

Lemma choose_submseteq n g k urn : choose n g k urn ⊆+ urn.
Proof.
  revert k urn. induction n as [|n IH]; intros k urn; simpl.
  - apply submseteq_nil_l.
  - destruct (urn !! (g k mod length urn)) as [x|] eqn:E.
    + trans (x :: delete (g k mod length urn) urn).
      * apply submseteq_skip, IH.
      * apply Permutation_submseteq. symmetry. by apply delete_Permutation.
    + apply submseteq_nil_l.
Qed.

Lemma length_choose n g k urn : n ≤ length urn → length (choose n g k urn) = n.
Proof.
  revert k urn. induction n as [|n IH]; intros k urn Hn; simpl; [reflexivity|].
  assert (Hi : g k mod length urn < length urn) by (apply Nat.mod_upper_bound; lia).
  destruct (lookup_lt_is_Some_2 _ _ Hi) as [x E]. rewrite E. simpl.
  rewrite IH; [reflexivity|]. rewrite length_delete by eauto. lia.
Qed.

Lemma filter_submseteq (f : A → bool) (l1 l2 : list A) :
  l1 ⊆+ l2 → List.filter f l1 ⊆+ List.filter f l2.
Proof.
  induction 1 as [|x l1 l2 _ IH|x y l|x l1 l2 _ IH|l1 l2 l3 _ IH1 _ IH2]; simpl.
  - constructor.
  - destruct (f x); [by apply submseteq_skip|done].
  - destruct (f x), (f y); try done. apply submseteq_swap.
  - destruct (f x); [by apply submseteq_cons|done].
  - by etrans.
Qed.
End Choose.

Lemma class_count_submseteq p z (l1 l2 : list Row) :
  l1 ⊆+ l2 → class_count p z l1 ≤ class_count p z l2.
Proof. intros H. apply submseteq_length, filter_submseteq, H. Qed.

Lemma class_count_app p z (l1 l2 : list Row) :
  class_count p z (l1 ++ l2) = class_count p z l1 + class_count p z l2.
Proof. unfold class_count, group_rows. by rewrite List.filter_app, length_app. Qed.

(** A list of rows of one class. *)
Lemma class_count_same p z key (l : list Row) :
  Forall (fun r => cell_at p r = CInt key) l →
  class_count p z l = if decide (key = z) then length l else 0.
Proof.
  unfold class_count, group_rows.
  induction 1 as [|r l Hr _ IH]; simpl; [by destruct (decide _)|].
  rewrite Hr. destruct (decide (key = z)) as [->|Hne].
  - rewrite bool_decide_eq_true_2 by done. simpl. by rewrite IH.
  - rewrite bool_decide_eq_false_2 by congruence. done.
Qed.

Lemma group_rows_key p key (rs : list Row) :
  Forall (fun r => cell_at p r = CInt key) (group_rows p key rs).
Proof.
  unfold group_rows. induction rs as [|r rs IH]; simpl; [constructor|].
  destruct (bool_decide (cell_at p r = CInt key)) eqn:E; [|done].
  constructor; [|done]. by apply bool_decide_eq_true in E.
Qed.

Lemma group_keys_spec p (rs : list Row) :
  int_column p rs →
  ∃ keys, group_keys (map (cell_at p) rs) = Ok keys
    ∧ NoDup keys
    ∧ ∀ z, z ∈ keys ↔ ∃ r, r ∈ rs ∧ cell_at p r = CInt z.
Proof.
  intros Hint. unfold group_keys.
  rewrite (traverse_map _ (fun c => match c with CInt z => Some z | _ => None end)).
  2:{ rewrite Forall_map. eapply Forall_impl; [exact Hint|].
      intros r [z Hz]. by rewrite (cell_at_lookup _ _ _ Hz). }
  rewrite bind_Ok. eexists. split; [reflexivity|]. split.
  - rewrite merge_sort_Permutation. apply NoDup_remove_dups.
  - intros z. rewrite merge_sort_Permutation, elem_of_remove_dups, list_elem_of_omap.
    split.
    + intros (o & Ho & Hid). simpl in Hid. subst o.
      apply list_elem_of_fmap in Ho as (c & Hc & Hin).
      apply list_elem_of_fmap in Hin as (r & -> & Hr).
      exists r. split; [done|]. by destruct (cell_at p r); simplify_eq.
    + intros (r & Hr & Hz). exists (Some z). split; [|done].
      apply list_elem_of_fmap. exists (CInt z). split; [done|].
      apply list_elem_of_fmap. eauto.
Qed.

Lemma sum_list_with_add {A} (f g : A → nat) (l : list A) :
  sum_list_with (fun x => f x + g x) l = sum_list_with f l + sum_list_with g l.
Proof. induction l as [|x l IH]; simpl; lia. Qed.

Lemma sum_list_with_indicator (z : Z) (keys : list Z) :
  NoDup keys → z ∈ keys →
  sum_list_with (fun key => if bool_decide (CInt z = CInt key) then 1 else 0) keys = 1.
Proof.
  induction 1 as [|key keys Hnotin Hnd IH]; intros Hin; [by apply elem_of_nil in Hin|].
  simpl. apply elem_of_cons in Hin as [->|Hin].
  - rewrite bool_decide_eq_true_2 by done.
    assert (sum_list_with (fun k => if bool_decide (CInt key = CInt k) then 1 else 0) keys = 0)
      as ->; [|done].
    clear IH Hnd. induction keys as [|k keys IH]; simpl; [done|].
    apply not_elem_of_cons in Hnotin as [Hne Hnotin].
    rewrite bool_decide_eq_false_2 by congruence. by rewrite IH.
  - rewrite bool_decide_eq_false_2; [by rewrite IH|].
    intros [= ->]. done.
Qed.

Lemma sum_list_with_ext {A} (f g : A → nat) (l : list A) :
  (∀ x, f x = g x) → sum_list_with f l = sum_list_with g l.
Proof. intros H. induction l as [|x l IH]; simpl; [done|]. by rewrite H, IH. Qed.

(** The groups cut the frame into pieces: their sizes add up to its size. *)
Lemma sum_class_count p (rs : list Row) (keys : list Z) :
  NoDup keys →
  Forall (fun r => ∃ z, z ∈ keys ∧ cell_at p r = CInt z) rs →
  sum_list_with (fun key => class_count p key rs) keys = length rs.
Proof.
  intros Hnd. induction 1 as [|r rs (z & Hz & Hr) _ IH].
  - clear Hnd. induction keys as [|k keys IHk]; simpl; [done|]. by rewrite IHk.
  - rewrite (sum_list_with_ext _
      (fun key => (if bool_decide (CInt z = CInt key) then 1 else 0)
                  + class_count p key rs)).
    + rewrite sum_list_with_add, (sum_list_with_indicator z keys Hnd Hz), IH.
      reflexivity.
    + intros key. unfold class_count, group_rows. simpl. rewrite Hr.
      by destruct (bool_decide (CInt z = CInt key)).
Qed.

Lemma min_sum_list_with {A} (f : A → nat) (m : nat) (l : list A) :
  min (sum_list_with f l) m ≤ sum_list_with (fun x => min (f x) m) l.
Proof. induction l as [|x l IH]; simpl; lia. Qed.

Lemma class_count_absent p z (rs : list Row) :
  (¬ ∃ r, r ∈ rs ∧ cell_at p r = CInt z) → class_count p z rs = 0.
Proof.
  intros Hno. unfold class_count, group_rows.
  induction rs as [|r rs IH]; simpl; [done|].
  rewrite bool_decide_eq_false_2.
  - apply IH. intros (r' & Hr' & Hz). apply Hno. exists r'. split; [by right|done].
  - intros Hz. apply Hno. exists r. split; [by left|done].
Qed.

(** [sample] answers by the size of the frame alone. *)
Lemma sample_Ok df n st :
  n ≤ length (rows df) →
  sample df n st
  = Ok (mkFrame (columns df) (choose n (draws st) (consumed st) (rows df)),
        mkRandom (draws st) (consumed st + n)).
Proof.
  intros Hn. unfold sample.
  destruct (Nat.ltb_spec (length (rows df)) n); [lia|reflexivity].
Qed.

Lemma sample_Raise df n st :
  length (rows df) < n → sample df n st = Raise ValueError.
Proof.
  intros Hn. unfold sample.
  destruct (Nat.ltb_spec (length (rows df)) n); [reflexivity|lia].
Qed.

Lemma sample_inv df n st final st' :
  sample df n st = Ok (final, st') →
  n ≤ length (rows df)
  ∧ final = mkFrame (columns df) (choose n (draws st) (consumed st) (rows df)).
Proof.
  unfold sample. destruct (Nat.ltb_spec (length (rows df)) n) as [Hlt|Hge]; [discriminate|].
  intros Heq. apply Ok_pair_inv in Heq as [<- _]. split; [lia|reflexivity].
Qed.

Section Balance.
Variable cap : nat.

Lemma draw_group_Ok x st :
  draw_group cap x st
  = Ok (mkFrame (columns x)
                (choose (min (length (rows x)) cap) (draws st) (consumed st) (rows x)),
        mkRandom (draws st) (consumed st + min (length (rows x)) cap)).
Proof. unfold draw_group. apply sample_Ok. lia. Qed.

Lemma apply_groups_sample cols p rs g k keys :
  apply_groups (draw_group cap)
    (map (fun key => mkFrame cols (group_rows p key rs)) keys) (mkRandom g k)
  = Ok (balanced_rows cap p rs g k keys,
        mkRandom g (k + balanced_size cap p rs keys)).
Proof.
  revert k. induction keys as [|key keys IH]; intros k.
  - unfold balanced_size. cbn [map apply_groups balanced_rows sum_list_with].
    by rewrite Nat.add_0_r.
  - cbn [map apply_groups balanced_rows].
    rewrite draw_group_Ok, bind_Ok. cbn [rows columns draws consumed].
    rewrite IH, bind_Ok. unfold balanced_size, class_count.
    cbn [sum_list_with]. do 3 f_equal. lia.
Qed.

Lemma class_count_balanced p rs g k keys z :
  NoDup keys →
  class_count p z (balanced_rows cap p rs g k keys)
  = if decide (z ∈ keys) then min (class_count p z rs) cap else 0.
Proof.
  intros Hnd. revert k.
  induction Hnd as [|key keys Hnotin Hnd IH]; intros k; cbn [balanced_rows].
  - rewrite decide_False by apply not_elem_of_nil. reflexivity.
  - rewrite class_count_app, IH.
    rewrite (class_count_same p z key).
    2:{ eapply Forall_forall. intros r Hr.
        pose proof (group_rows_key p key rs) as Hall. rewrite Forall_forall in Hall.
        apply Hall. eapply elem_of_submseteq; [exact Hr|apply choose_submseteq]. }
    rewrite length_choose by (fold (class_count p key rs); lia).
    destruct (decide (key = z)) as [->|Hne].
    + rewrite (decide_False (P := z ∈ keys)) by done.
      rewrite (decide_True (P := z ∈ z :: keys)) by (apply elem_of_cons; auto). lia.
    + destruct (decide (z ∈ keys)) as [Hin|Hout].
      * rewrite (decide_True (P := z ∈ key :: keys)) by (apply elem_of_cons; auto). lia.
      * rewrite (decide_False (P := z ∈ key :: keys)); [lia|].
        rewrite elem_of_cons. intros [->|]; done.
Qed.

Lemma length_balanced p rs g k keys :
  length (balanced_rows cap p rs g k keys) = balanced_size cap p rs keys.
Proof.
  revert k. induction keys as [|key keys IH]; intros k; [reflexivity|].
  cbn [balanced_rows].
  rewrite length_app, IH, length_choose by (fold (class_count p key rs); lia).
  reflexivity.
Qed.

Lemma balanced_size_le p (rs : list Row) (keys : list Z) :
  balanced_size cap p rs keys
  ≤ sum_list_with (fun key => class_count p key rs) keys.
Proof.
  unfold balanced_size.
  induction keys as [|k keys IH]; cbn [sum_list_with]; lia.
Qed.

Lemma elem_of_balanced_rows p rs g k keys r :
  r ∈ balanced_rows cap p rs g k keys → r ∈ rs.
Proof.
  revert k. induction keys as [|key keys IH]; intros k; cbn [balanced_rows].
  - intros H. by apply elem_of_nil in H.
  - rewrite elem_of_app. intros [H|H]; [|by eapply IH].
    eapply elem_of_submseteq in H; [|apply choose_submseteq].
    apply list_elem_of_In, filter_In in H as [H _]. by apply list_elem_of_In.
Qed.

(** The grouped draw on a frame with an integer key column. *)
Lemma groupby_sample_spec df name p st :
  col_pos name (columns df) = Some p →
  int_column p (rows df) →
  ∃ keys,
    NoDup keys
    ∧ (∀ z, z ∈ keys ↔ ∃ r, r ∈ rows df ∧ cell_at p r = CInt z)
    ∧ groupby_apply df name (draw_group cap) st
      = Ok (mkFrame (columns df)
                    (balanced_rows cap p (rows df) (draws st) (consumed st) keys),
            mkRandom (draws st)
                     (consumed st + balanced_size cap p (rows df) keys)).
Proof.
  intros Hp Hint.
  destruct (group_keys_spec p (rows df) Hint) as (keys & Hk & Hnd & Hin).
  exists keys. split; [done|]. split; [done|].
  unfold groupby_apply. rewrite Hp, Hk, bind_Ok.
  destruct st as [g k]. cbn [draws consumed].
  by rewrite apply_groups_sample, bind_Ok.
Qed.

(** The class sizes and the size of the grouped draw. *)
Lemma balanced_counts df p g k keys :
  int_column p (rows df) →
  NoDup keys →
  (∀ z, z ∈ keys ↔ ∃ r, r ∈ rows df ∧ cell_at p r = CInt z) →
  (∀ z, class_count p z (balanced_rows cap p (rows df) g k keys)
        = min (class_count p z (rows df)) cap)
  ∧ min (length (rows df)) cap ≤ length (balanced_rows cap p (rows df) g k keys)
  ∧ length (balanced_rows cap p (rows df) g k keys) ≤ length (rows df).
Proof.
  intros Hint Hnd Hkeys.
  assert (Hall : Forall (fun r => ∃ z, z ∈ keys ∧ cell_at p r = CInt z) (rows df)).
  { eapply Forall_forall. intros r Hr.
    unfold int_column in Hint. rewrite Forall_forall in Hint.
    destruct (Hint r Hr) as [z Hz]. exists z.
    split; [|by apply cell_at_lookup]. apply Hkeys. exists r.
    split; [done|by apply cell_at_lookup]. }
  split; [|split].
  - intros z. rewrite class_count_balanced by done.
    destruct (decide (z ∈ keys)) as [Hin|Hout]; [done|].
    rewrite class_count_absent; [done|]. by rewrite <- Hkeys.
  - rewrite length_balanced.
    pose proof (min_sum_list_with (fun key => class_count p key (rows df)) cap keys) as Hmin.
    rewrite sum_class_count in Hmin by done. exact Hmin.
  - rewrite length_balanced.
    pose proof (balanced_size_le p (rows df) keys) as Hle.
    by rewrite sum_class_count in Hle.
Qed.

End Balance.

(** What the subsampling cell returns: the frame [balance] draws and a
    draw of 1000 of its rows. *)
Lemma cell9_inv df p st final st' :
  col_pos "rating" (columns df) = Some p →
  int_column p (rows df) →
  cell9 df st = Ok (final, st') →
  ∃ balanced st1,
    balance df st = Ok (balanced, st1)
    ∧ sample balanced 1000 st1 = Ok (final, st')
    ∧ (∀ z, class_count p z (rows balanced) = min (class_count p z (rows df)) 2369)
    ∧ (∀ r, r ∈ rows balanced → r ∈ rows df)
    ∧ rows final ⊆+ rows balanced
    ∧ length (rows final) = 1000.
Proof.
  intros Hp Hint Hcell.
  destruct (groupby_sample_spec 2369 df "rating" p st Hp Hint) as (keys & Hnd & Hkeys & Hbal).
  change (groupby_apply df "rating" _ st) with (balance df st) in Hbal.
  unfold cell9 in Hcell. rewrite Hbal, bind_Ok in Hcell.
  eexists _, _. split; [exact Hbal|]. split; [exact Hcell|].
  apply sample_inv in Hcell as [Hsize ->]. cbn [rows columns draws consumed] in *.
  split; [apply (balanced_counts 2369 df p _ _ keys Hint Hnd Hkeys)|].
  split; [intros r; apply elem_of_balanced_rows|].
  split; [apply choose_submseteq|by apply length_choose].
Qed.

Lemma cell9_rows df p st final st' :
  col_pos "rating" (columns df) = Some p →
  int_column p (rows df) →
  cell9 df st = Ok (final, st') →
  ∀ r, r ∈ rows final → r ∈ rows df.
Proof.
  intros Hp Hint Hcell r Hr.
  destruct (cell9_inv df p st final st' Hp Hint Hcell)
    as (balanced & st1 & _ & _ & _ & Hin & Hsub & _).
  apply Hin. by eapply elem_of_submseteq.
Qed.

(** With at least 1000 rows the cell returns. *)
Lemma cell9_returns df p st :
  col_pos "rating" (columns df) = Some p →
  int_column p (rows df) →
  1000 ≤ length (rows df) →
  ∃ final st', cell9 df st = Ok (final, st').
Proof.
  intros Hp Hint Hlen.
  destruct (groupby_sample_spec 2369 df "rating" p st Hp Hint) as (keys & Hnd & Hkeys & Hbal).
  change (groupby_apply df "rating" _ st) with (balance df st) in Hbal.
  unfold cell9. rewrite Hbal, bind_Ok.
  rewrite sample_Ok; [by eexists _, _|]. cbn [rows].
  pose proof (balanced_counts 2369 df p (draws st) (consumed st) keys Hint Hnd Hkeys)
    as (_ & Hmin & _). lia.
Qed.

(** With fewer than 1000 rows the final draw is refused. *)
Lemma cell9_small_frame df p st :
  col_pos "rating" (columns df) = Some p →
  int_column p (rows df) →
  length (rows df) < 1000 →
  cell9 df st = Raise ValueError.
Proof.
  intros Hp Hint Hlen.
  destruct (groupby_sample_spec 2369 df "rating" p st Hp Hint) as (keys & Hnd & Hkeys & Hbal).
  change (groupby_apply df "rating" _ st) with (balance df st) in Hbal.
  unfold cell9. rewrite Hbal, bind_Ok.
  apply sample_Raise. cbn [rows].
  pose proof (balanced_counts 2369 df p (draws st) (consumed st) keys Hint Hnd Hkeys)
    as (_ & _ & Hle). lia.
Qed.

(** C8: on a frame of at least 1000 rows with an integer rating column the
    subsampling cell returns, whatever the random draws are.  The grouped
    step keeps [min (size, 2369)] rows of every rating class, the final
    draw keeps exactly 1000 rows, all of them rows of the input, and no
    class has more than 2369 rows or more rows than it had. *)
Theorem C8_balanced_subsample (df : DataFrame) (p : nat) (st : RandomState) :
  NoDup (columns df) →
  col_pos "rating" (columns df) = Some p →
  int_column p (rows df) →
  1000 ≤ length (rows df) →
  ∃ balanced st1 final st2,
    balance df st = Ok (balanced, st1)
    ∧ sample balanced 1000 st1 = Ok (final, st2)
    ∧ cell9 df st = Ok (final, st2)
    ∧ (∀ z, class_count p z (rows balanced) = min (class_count p z (rows df)) 2369)
    ∧ length (rows final) = 1000
    ∧ (∀ r, r ∈ rows final → r ∈ rows df)
    ∧ ∀ z, class_count p z (rows final) ≤ 2369
           ∧ class_count p z (rows final) ≤ class_count p z (rows df).
Proof.
  intros _ Hp Hint Hlen.
  destruct (cell9_returns df p st Hp Hint Hlen) as (final & st2 & Hcell).
  destruct (cell9_inv df p st final st2 Hp Hint Hcell)
    as (balanced & st1 & Hbal & Hsample & Hcount & Hin & Hsub & Hsize).
  exists balanced, st1, final, st2.
  repeat split; try done.
  - intros r Hr. apply Hin. by eapply elem_of_submseteq.
  - pose proof (class_count_submseteq p z _ _ Hsub) as Hle.
    rewrite Hcount in Hle. lia.
  - pose proof (class_count_submseteq p z _ _ Hsub) as Hle.
    rewrite Hcount in Hle. lia.
Qed.

Lemma C8_balanced_subsample_witness :
  ∃ balanced st1 final st2,
    balance Samples.big Samples.st0 = Ok (balanced, st1)
    ∧ sample balanced 1000 st1 = Ok (final, st2)
    ∧ cell9 Samples.big Samples.st0 = Ok (final, st2)
    ∧ (∀ z, class_count 0 z (rows balanced)
            = min (class_count 0 z (rows Samples.big)) 2369)
    ∧ length (rows final) = 1000
    ∧ (∀ r, r ∈ rows final → r ∈ rows Samples.big)
    ∧ ∀ z, class_count 0 z (rows final) ≤ 2369
           ∧ class_count 0 z (rows final) ≤ class_count 0 z (rows Samples.big).
Proof.
  apply (C8_balanced_subsample Samples.big 0 Samples.st0).
  - apply (bool_decide_unpack _). vm_compute. exact I.
  - reflexivity.
  - unfold int_column, Samples.big. cbn [rows].
    apply Forall_app. split; apply Forall_replicate; eexists; reflexivity.
  - unfold Samples.big. cbn [rows]. rewrite length_app, !length_replicate. lia.
Defined.

(** *** Cells 5, 6 and 9 together: the review text *)

Lemma col_pos_inj a b cols p :
  col_pos a cols = Some p → col_pos b cols = Some p → a = b.
Proof.
  revert p. induction cols as [|c cols IH]; simpl; intros p; [discriminate|].
  destruct (String.eqb c a) eqn:Ea, (String.eqb c b) eqn:Eb.
  - apply String.eqb_eq in Ea, Eb. congruence.
  - intros [= <-]. destruct (col_pos b cols); discriminate.
  - destruct (col_pos a cols); [|discriminate]. intros [= <-]. discriminate.
  - destruct (col_pos a cols) as [pa|], (col_pos b cols) as [pb|] eqn:Eb'; try discriminate.
    simpl. intros [= <-] [= ->]. by apply (IH pa).
Qed.

Lemma filter_map_bool {A B} (f : B → bool) (g : A → B) (l : list A) :
  List.filter f (map g l) = map g (List.filter (fun x => f (g x)) l).
Proof.
  induction l as [|x l IH]; simpl; [reflexivity|].
  destruct (f (g x)); simpl; by rewrite IH.
Qed.

Lemma long_review_set_cell tp rp v r :
  rp ≠ tp → long_review tp (set_cell rp v r) = long_review tp r.
Proof. intros Hne. unfold long_review. by rewrite cell_at_set_cell_ne. Qed.

(** What cells 5 and 6 do together. *)
Lemma clean_spec df rp tp :
  rectangular df →
  col_pos "rating" (map rename_column (columns df)) = Some rp →
  col_pos "review_text" (map rename_column (columns df)) = Some tp →
  col_pos "review_length" (map rename_column (columns df)) = None →
  int_column rp (rows df) →
  text_column tp (rows df) →
  clean df
  = Ok (reset_index
          (mkFrame (map rename_column (columns df))
                   (map (fun r => set_cell rp (remap_cell (cell_at rp r)) r)
                        (List.filter (long_review tp) (rows df))))).
Proof.
  intros Hrect Hrp Htp Hfresh Hint Htext.
  assert (Hne : rp ≠ tp).
  { intros ->. by pose proof (col_pos_inj _ _ _ _ Hrp Htp). }
  unfold clean. rewrite (cell5_spec df rp Hrp Hint), bind_Ok.
  rewrite (cell6_spec _ tp); cbn [columns rows update_col]; try done.
  - do 3 f_equal. rewrite filter_map_bool. f_equal.
    apply filter_ext_Forall, Forall_true. intros r. by apply long_review_set_cell.
  - unfold rectangular. cbn [columns rows update_col]. rewrite Forall_map.
    eapply Forall_impl; [exact Hrect|]. intros r Hr. simpl.
    by rewrite length_insert, length_map.
  - unfold text_column. rewrite Forall_map.
    eapply Forall_impl; [exact Htext|]. intros r Hr. simpl.
    by rewrite cell_at_set_cell_ne.
Qed.

Lemma remap_cell_int : int_cell remap_cell.
Proof.
  intros z. unfold remap_cell.
  destruct (shifted_int z) as [z1 ->]. destruct (grouped_int z1) as [z2 ->].
  apply shifted_int.
Qed.

(** C10: cleaning leaves the review text alone.  The rows of the cleaned
    frame are, in order, the rows of the loaded frame that cell 6 keeps;
    row [i] of the cleaned frame has label [i], the review text of the
    [i]-th kept row of the loaded frame, and the same cells everywhere
    outside the rating column.  Subsampling only selects rows: every row it
    returns is a row of the cleaned frame, so its label still names the
    loaded row whose review text it carries. *)
Theorem C10_review_text_untouched (df : DataFrame) (rp tp : nat) :
  NoDup (map rename_column (columns df)) →
  rectangular df →
  col_pos "rating" (map rename_column (columns df)) = Some rp →
  col_pos "review_text" (map rename_column (columns df)) = Some tp →
  col_pos "review_length" (map rename_column (columns df)) = None →
  int_column rp (rows df) →
  text_column tp (rows df) →
  ∃ df', clean df = Ok df'
    ∧ col_pos "review_text" (columns df') = Some tp
    ∧ length (rows df') = length (List.filter (long_review tp) (rows df))
    ∧ (∀ i r', rows df' !! i = Some r' →
         ∃ r, List.filter (long_review tp) (rows df) !! i = Some r
              ∧ r ∈ rows df
              ∧ label r' = Z.of_nat i
              ∧ cell_at tp r' = cell_at tp r
              ∧ ∀ q, q ≠ rp → cells r' !! q = cells r !! q)
    ∧ (∀ st final st', cell9 df' st = Ok (final, st') →
         ∀ r', r' ∈ rows final →
           ∃ i r, List.filter (long_review tp) (rows df) !! i = Some r
                  ∧ label r' = Z.of_nat i
                  ∧ cell_at tp r' = cell_at tp r).
Proof.
  intros _ Hrect Hrp Htp Hfresh Hint Htext.
  assert (Hne : rp ≠ tp).
  { intros ->. by pose proof (col_pos_inj _ _ _ _ Hrp Htp). }
  set (kept := List.filter (long_review tp) (rows df)).
  eexists. split; [exact (clean_spec df rp tp Hrect Hrp Htp Hfresh Hint Htext)|].
  fold kept. unfold reset_index. cbn [columns rows].
  set (g := fun r => set_cell rp (remap_cell (cell_at rp r)) r).
  assert (Hrow : ∀ i r',
             imap (fun i r => mkRow (Z.of_nat i) (cells r)) (map g kept) !! i = Some r' →
             ∃ r, kept !! i = Some r ∧ r ∈ rows df ∧ label r' = Z.of_nat i
                  ∧ cells r' = <[rp := remap_cell (cell_at rp r)]> (cells r)).
  { intros i r'. rewrite list_lookup_imap, list_lookup_fmap.
    destruct (kept !! i) as [r|] eqn:Hr; [|discriminate]. simpl. intros [= <-].
    exists r. split; [done|]. split; [|done].
    apply list_elem_of_lookup_2 in Hr.
    apply list_elem_of_In, filter_In in Hr as [Hr _]. by apply list_elem_of_In. }
  assert (Hpart : ∀ i r',
             imap (fun i r => mkRow (Z.of_nat i) (cells r)) (map g kept) !! i = Some r' →
             ∃ r, kept !! i = Some r ∧ r ∈ rows df ∧ label r' = Z.of_nat i
                  ∧ cell_at tp r' = cell_at tp r
                  ∧ ∀ q, q ≠ rp → cells r' !! q = cells r !! q).
  { intros i r' Hi. destruct (Hrow i r' Hi) as (r & Hk & Hin & Hl & Hc).
    exists r. repeat split; try done.
    - unfold cell_at. by rewrite Hc, list_lookup_insert_ne.
    - intros q Hq. by rewrite Hc, list_lookup_insert_ne. }
  assert (Hint' : int_column rp
            (imap (fun i r => mkRow (Z.of_nat i) (cells r)) (map g kept))).
  { apply Forall_lookup. intros i r0 Hi.
    destruct (Hrow i r0 Hi) as (r & Hk & Hin & _ & Hc).
    unfold int_column in Hint. rewrite Forall_forall in Hint.
    destruct (Hint r Hin) as [z Hz].
    rewrite Hc, (cell_at_lookup _ _ _ Hz).
    destruct (remap_cell_int z) as [z' ->]. exists z'.
    apply list_lookup_insert_eq. by eapply lookup_lt_Some. }
  split; [exact Htp|]. split; [by rewrite length_imap, length_map|].
  split; [exact Hpart|].
  intros st final st' Hcell r' Hr'.
  pose proof (cell9_rows
                (mkFrame (map rename_column (columns df))
                         (imap (fun i r => mkRow (Z.of_nat i) (cells r)) (map g kept)))
                rp st final st' Hrp Hint' Hcell r' Hr') as Hin.
  cbn [rows] in Hin. apply list_elem_of_lookup in Hin as [i Hi].
  destruct (Hpart i r' Hi) as (r & Hk & _ & Hl & Ht & _). eauto.
Qed.

Lemma C10_review_text_untouched_witness :
  ∃ df', clean Samples.df0 = Ok df'
    ∧ col_pos "review_text" (columns df') = Some 3
    ∧ length (rows df') = length (List.filter (long_review 3) (rows Samples.df0))
    ∧ (∀ i r', rows df' !! i = Some r' →
         ∃ r, List.filter (long_review 3) (rows Samples.df0) !! i = Some r
              ∧ r ∈ rows Samples.df0
              ∧ label r' = Z.of_nat i
              ∧ cell_at 3 r' = cell_at 3 r
              ∧ ∀ q, q ≠ 4 → cells r' !! q = cells r !! q)
    ∧ (∀ st final st', cell9 df' st = Ok (final, st') →
         ∀ r', r' ∈ rows final →
           ∃ i r, List.filter (long_review 3) (rows Samples.df0) !! i = Some r
                  ∧ label r' = Z.of_nat i
                  ∧ cell_at 3 r' = cell_at 3 r).
Proof.
  apply (C10_review_text_untouched Samples.df0 4 3).
  - apply (bool_decide_unpack _). vm_compute. exact I.
  - unfold rectangular. simpl. repeat constructor.
  - reflexivity.
  - reflexivity.
  - reflexivity.
  - unfold int_column. simpl. repeat constructor; eexists; reflexivity.
  - unfold text_column. simpl. repeat constructor.
Defined.

(** *** Cells 11 to 13: the two ways of calling the tokenizer wrapper *)

Lemma length_encode_text tk params text :
  truncation params = true →
  padding params = PadMaxLength →
  (add_special_tokens params = true → 2 ≤ max_length params) →
  length (encode_text tk params text) = max_length params.
Proof.
  intros Htr Hpad Hroom. unfold encode_text, special_room. rewrite Htr, Hpad.
  destruct (add_special_tokens params) eqn:Hsp.
  - specialize (Hroom eq_refl).
    rewrite length_app, length_replicate. cbn [length].
    rewrite length_app, length_take. cbn [length]. lia.
  - rewrite length_app, length_replicate, length_take. lia.
Qed.

Lemma pad_batch_max_length tk params batch :
  padding params = PadMaxLength → pad_batch tk params batch = batch.
Proof. intros Hpad. unfold pad_batch. by rewrite Hpad. Qed.

Section TokenizerFacts.
Variable pretrained : string → Tokenizer.

(** Both conventions reduce to the same call of [encode]. *)
Lemma transform_tokenizer1 df tp :
  col_pos "review_text" (columns df) = Some tp →
  transform pretrained tokenizer1 df
  = encode pretrained tokenizer1 (map (cell_at tp) (rows df)) params90.
Proof.
  intros Hp. unfold transform, tokenizer1. cbn [text_col encode_params].
  unfold getitem. by rewrite Hp, bind_Ok.
Qed.

Lemma encode_same_model (pp1 pp2 : HFPreprocessor) texts params :
  HuggingFace.model_name pp1 = HuggingFace.model_name pp2 →
  encode pretrained pp1 texts params = encode pretrained pp2 texts params.
Proof. intros Hm. unfold encode. by rewrite Hm. Qed.

Lemma X_text_tr2_spec df tp :
  col_pos "review_text" (columns df) = Some tp →
  X_text_tr2 pretrained df
  = encode pretrained tokenizer2 (map (cell_at tp) (rows df)) params90.
Proof.
  intros Hp. unfold X_text_tr2. by rewrite (getattr_spec df _ tp Hp), bind_Ok.
Qed.

Lemma encode_strings pp (rs : list Row) tp params :
  Forall (fun r => ∃ s, cell_at tp r = CStr s) rs →
  ∃ texts, length texts = length rs
    ∧ encode pretrained pp (map (cell_at tp) rs) params
      = Ok (pad_batch (pretrained (HuggingFace.model_name pp)) params
              (map (encode_text (pretrained (HuggingFace.model_name pp)) params) texts)).
Proof.
  intros Hs. unfold encode.
  exists (map (fun r => match cell_at tp r with CStr s => s | _ => EmptyString end) rs).
  split; [by rewrite length_map|].
  rewrite (traverse_map _ (fun c => match c with CStr s => s | _ => EmptyString end)).
  - rewrite bind_Ok. cbv zeta. by rewrite !map_map.
  - rewrite Forall_map. eapply Forall_impl; [exact Hs|]. by intros r [s ->].
Qed.

End TokenizerFacts.

Lemma conventions_agree (pretrained : string → Tokenizer) (df : DataFrame) tp :
  col_pos "review_text" (columns df) = Some tp →
  X_text_tr1 pretrained df = X_text_tr2 pretrained df
  ∧ X_text_te1 pretrained df = X_text_te2 pretrained df.
Proof.
  intros Hp.
  assert (Hte : X_text_te1 pretrained df = X_text_tr2 pretrained df).
  { unfold X_text_te1.
    rewrite (transform_tokenizer1 _ _ tp Hp), (X_text_tr2_spec _ _ tp Hp).
    by apply encode_same_model. }
  split; [|exact Hte].
  unfold X_text_tr1, fit_transform, fit, tokenizer1. cbn [text_col encode_params].
  rewrite bind_Ok. exact Hte.
Qed.

(** C1: for every frame with a [review_text] column, building the
    preprocessor with [text_col] and [encode_params] and calling
    [fit_transform] (or [transform]) gives the same result, row for row, as
    building it bare and calling [encode] on the column as a list with the
    same parameters; whenever the calls return on a frame that is not
    empty, the check of cell 13 answers [True]. *)
Theorem C1_calling_conventions_agree
        (pretrained : string → Tokenizer) (train test : DataFrame) :
  NoDup (columns train) →
  NoDup (columns test) →
  is_Some (col_pos "review_text" (columns train)) →
  is_Some (col_pos "review_text" (columns test)) →
  X_text_tr1 pretrained train = X_text_tr2 pretrained train
  ∧ X_text_te1 pretrained test = X_text_te2 pretrained test
  ∧ (∀ X, X_text_tr1 pretrained train = Ok X → X ≠ [] →
          X_text_tr2 pretrained train = Ok X ∧ cell13 pretrained train = Ok true).
Proof.
  intros _ _ [p Hp] [q Hq].
  destruct (conventions_agree pretrained train p Hp) as [Htr _].
  destruct (conventions_agree pretrained test q Hq) as [_ Hte].
  split; [exact Htr|]. split; [exact Hte|].
  intros X HX Hne. rewrite <- Htr. split; [exact HX|].
  unfold cell13. rewrite <- Htr, HX, !bind_Ok.
  destruct X as [|r X]; [done|]. unfold first_rows_equal.
  by rewrite Nat.eqb_refl, bool_decide_eq_true_2.
Qed.

Lemma C1_calling_conventions_agree_witness :
  X_text_tr1 Samples.hub Samples.df2 = X_text_tr2 Samples.hub Samples.df2
  ∧ X_text_te1 Samples.hub Samples.df2 = X_text_te2 Samples.hub Samples.df2
  ∧ (∀ X, X_text_tr1 Samples.hub Samples.df2 = Ok X → X ≠ [] →
          X_text_tr2 Samples.hub Samples.df2 = Ok X
          ∧ cell13 Samples.hub Samples.df2 = Ok true).
Proof.
  apply (C1_calling_conventions_agree Samples.hub Samples.df2 Samples.df2).
  - apply (bool_decide_unpack _). vm_compute. exact I.
  - apply (bool_decide_unpack _). vm_compute. exact I.
  - eexists; reflexivity.
  - eexists; reflexivity.
Defined.

(** C4: every tokenizer call of the notebook — [fit_transform] and
    [transform] of the first preprocessor, the two [encode] calls of the
    second — runs with max_length 90, padding to the maximum length,
    truncation and special tokens, and on a frame whose review texts are
    strings each of them returns one sequence of exactly 90 ids per
    review. *)
Theorem C4_fixed_length_ids
        (pretrained : string → Tokenizer) (df : DataFrame) (tp : nat) :
  NoDup (columns df) →
  col_pos "review_text" (columns df) = Some tp →
  Forall (fun r => ∃ s, cell_at tp r = CStr s) (rows df) →
  encode_params tokenizer1
  = Some {| max_length := 90; padding := PadMaxLength;
            truncation := true; add_special_tokens := true |}
  ∧ ∃ X, X_text_tr1 pretrained df = Ok X
       ∧ X_text_te1 pretrained df = Ok X
       ∧ X_text_tr2 pretrained df = Ok X
       ∧ X_text_te2 pretrained df = Ok X
       ∧ length X = length (rows df)
       ∧ Forall (fun ids => length ids = 90) X.
Proof.
  intros _ Hp Hs. split; [reflexivity|].
  destruct (conventions_agree pretrained df tp Hp) as [Htr Hte].
  destruct (encode_strings pretrained tokenizer2 (rows df) tp params90 Hs)
    as (texts & Hlen & Henc).
  rewrite pad_batch_max_length in Henc by reflexivity.
  eexists. rewrite Htr, Hte.
  change (X_text_te2 pretrained df) with (X_text_tr2 pretrained df).
  rewrite (X_text_tr2_spec _ _ tp Hp), Henc.
  repeat split; try reflexivity.
  - by rewrite length_map.
  - rewrite Forall_map. apply Forall_true. intros text.
    change 90 with (max_length params90).
    apply length_encode_text; [reflexivity..|]. intros _. cbn. lia.
Qed.

Lemma C4_fixed_length_ids_witness :
  encode_params tokenizer1
  = Some {| max_length := 90; padding := PadMaxLength;
            truncation := true; add_special_tokens := true |}
  ∧ ∃ X, X_text_tr1 Samples.hub Samples.df2 = Ok X
       ∧ X_text_te1 Samples.hub Samples.df2 = Ok X
       ∧ X_text_tr2 Samples.hub Samples.df2 = Ok X
       ∧ X_text_te2 Samples.hub Samples.df2 = Ok X
       ∧ length X = length (rows Samples.df2)
       ∧ Forall (fun ids => length ids = 90) X.
Proof.
  apply (C4_fixed_length_ids Samples.hub Samples.df2 3).
  - apply (bool_decide_unpack _). vm_compute. exact I.
  - reflexivity.
  - unfold Samples.df2. cbn [rows]. repeat constructor; eexists; reflexivity.
Defined.

(** *** Cells 14 to 17: the model, the training call and the scores *)

(** C7: the composite model is built with the transformer wrapper as its
    text branch and prediction dimension 4; the wide, the tabular and the
    image branch are absent, so the text branch is the only one plugged
    in. *)
Theorem C7_text_branch_only :
  deeptext wd_model = Some (TextBranch hf_model)
  ∧ hf_name hf_model = "distilbert-base-uncased"
  ∧ pred_dim wd_model = 4
  ∧ wide wd_model = None
  ∧ deeptabular wd_model = None
  ∧ deepimage wd_model = None
  ∧ branches wd_model = [("deeptext", TextBranch hf_model)]
  ∧ model trainer = wd_model.
Proof. repeat split. Qed.

Lemma length_batches {A} (batch_size : nat) (data : list A) :
  length (batches batch_size data) = num_batches (length data) batch_size.
Proof. unfold batches. by rewrite length_map, length_seq. Qed.

Section TrainingFacts.
Context `{B : Backend}.

Lemma run_batches_log t e i bs w :
  length (run_batches t e i bs w).2 = length bs
  ∧ map step (run_batches t e i bs w).2 = seq i (length bs)
  ∧ Forall (fun r => epoch r = e
                     ∧ map fst (metric_values r) = map metric_name (metrics t))
           (run_batches t e i bs w).2.
Proof.
  revert i w. induction bs as [|b bs IH]; intros i w; cbn [run_batches].
  - repeat split. constructor.
  - destruct (step_fn w b) as [w1 l].
    specialize (IH (S i) w1).
    destruct (run_batches t e (S i) bs w1) as [w2 rs]. cbn [snd] in *.
    destruct IH as (Hlen & Hstep & Hall).
    cbn [length map seq]. rewrite Hlen, Hstep.
    repeat split. constructor; [|exact Hall].
    cbn [epoch metric_values]. split; [reflexivity|].
    rewrite map_map. reflexivity.
Qed.

Lemma run_one_epoch t bs w :
  (run_epochs t 1 1 bs w).2 = (run_batches t 1 1 bs w).2.
Proof.
  cbn [run_epochs]. destruct (run_batches t 1 1 bs w) as [w1 rs].
  cbn [snd]. apply app_nil_r.
Qed.

Lemma int_values_column rp (rs : list Row) :
  int_column rp rs →
  ∃ y, int_values (map (cell_at rp) rs) = Ok y ∧ length y = length rs.
Proof.
  intros Hint. unfold int_values.
  exists (map (fun r => match cell_at rp r with CInt z => z | _ => 0%Z end) rs).
  split; [|by rewrite length_map].
  rewrite (traverse_map _ (fun c => match c with CInt z => z | _ => 0%Z end)).
  - by rewrite map_map.
  - rewrite Forall_map. eapply Forall_impl; [exact Hint|].
    intros r [z Hz]. by rewrite (cell_at_lookup _ _ _ Hz).
Qed.

Lemma argmax_from_lt best best_v i (row : list float) :
  best < i + length row → argmax_from best best_v i row < i + length row.
Proof.
  revert best best_v i. induction row as [|v row IH]; intros best best_v i Hb;
    cbn [argmax_from length] in *; [done|].
  destruct (float_ltb best_v v).
  - specialize (IH i v (S i)). lia.
  - specialize (IH best best_v (S i)). lia.
Qed.

Lemma argmax_lt (row : list float) : row ≠ [] → argmax row < length row.
Proof.
  destruct row as [|v row]; [done|]. intros _. unfold argmax.
  pose proof (argmax_from_lt 0 v 1 row). cbn [length]. lia.
Qed.

Lemma pred_text_class_range w X :
  Forall (fun c => (0 ≤ c < 4)%Z) (pred_text_class w X)
  ∧ length (pred_text_class w X) = length X.
Proof.
  unfold pred_text_class, predict_proba. rewrite !map_map, length_map.
  split; [|reflexivity]. rewrite Forall_map. apply Forall_true. intros x.
  cbn [model trainer pred_dim wd_model].
  assert (Hne : map (class_proba w x) (seq 0 4) ≠ []) by done.
  pose proof (argmax_lt _ Hne) as Hlt.
  rewrite length_map, length_seq in Hlt. lia.
Qed.

End TrainingFacts.
Lemma concat_chunks {A} (n k : nat) (data : list A) :
  length data ≤ n * k →
  concat (map (fun i => take n (drop (i * n) data)) (seq 0 k)) = data.
Proof.
  revert data. induction k as [|k IH]; intros data Hlen.
  - destruct data; [reflexivity|]. cbn [length] in Hlen. lia.
  - cbn [seq map concat]. rewrite <- seq_shift, map_map.
    trans (take n data ++ drop n data); [|apply take_drop].
    f_equal. etrans; [|apply (IH (drop n data)); rewrite length_drop; lia].
    f_equal. apply map_ext. intros i.
    rewrite drop_drop. reflexivity.
Qed.

(** The batches of an epoch: every example is in one of them, none is
    empty or larger than the batch size, and there are as many as it takes
    to hold the examples. *)
Lemma batches_spec {A} (n : nat) (data : list A) :
  0 < n →
  concat (batches n data) = data
  ∧ Forall (fun b => 1 ≤ length b ≤ n) (batches n data)
  ∧ length data ≤ n * length (batches n data) < length data + n.
Proof.
  intros Hn.
  assert (Hk : length data ≤ n * num_batches (length data) n < length data + n).
  { unfold num_batches.
    pose proof (Nat.div_mod_eq (length data + n - 1) n) as Hdiv.
    pose proof (Nat.mod_upper_bound (length data + n - 1) n) as Hmod. nia. }
  split; [|split].
  - unfold batches. apply concat_chunks. lia.
  - unfold batches. rewrite Forall_map. apply Forall_forall. intros i Hi.
    apply list_elem_of_In, in_seq in Hi.
    rewrite length_take, length_drop. nia.
  - by rewrite length_batches.
Qed.

Section EpochFacts.
Context `{B : Backend}.

Lemma run_batches_steps t e i bs w : (run_batches t e i bs w).1 = steps w bs.
Proof.
  revert i w. induction bs as [|b bs IH]; intros i w; cbn [run_batches];
    [reflexivity|].
  unfold steps. cbn [foldl]. destruct (step_fn w b) as [w1 l] eqn:Hstep.
  specialize (IH (S i) w1).
  destruct (run_batches t e (S i) bs w1) as [w2 rs]. cbn [fst] in *.
  exact IH.
Qed.

Lemma run_one_epoch_steps t bs w : (run_epochs t 1 1 bs w).1 = steps w bs.
Proof.
  cbn [run_epochs]. rewrite <- (run_batches_steps t 1 1 bs w).
  by destruct (run_batches t 1 1 bs w).
Qed.

Lemma int_values_spec rp (rs : list Row) :
  int_column rp rs →
  ∃ y, int_values (map (cell_at rp) rs) = Ok y
    ∧ map CInt y = map (cell_at rp) rs.
Proof.
  intros Hint. unfold int_values.
  exists (map (fun r => match cell_at rp r with CInt z => z | _ => 0%Z end) rs).
  split.
  - rewrite (traverse_map _ (fun c => match c with CInt z => z | _ => 0%Z end)).
    + by rewrite map_map.
    + rewrite Forall_map. eapply Forall_impl; [exact Hint|].
      intros r [z Hz]. by rewrite (cell_at_lookup _ _ _ Hz).
  - rewrite map_map. apply map_ext_Forall.
    eapply Forall_impl; [exact Hint|].
    intros r [z Hz]. by rewrite (cell_at_lookup _ _ _ Hz).
Qed.

Hypothesis Hord : ordered_floats.

(** [argmax_from] keeps the first largest entry of what it has seen. *)
Lemma argmax_from_spec (pre row : list float) best best_v :
  first_largest pre best → pre !! best = Some best_v →
  first_largest (pre ++ row) (argmax_from best best_v (length pre) row).
Proof.
  destruct Hord as (Hirr & Htrans & Hcot).
  revert pre best best_v.
  induction row as [|v row IH]; intros pre best best_v Hbest Hv;
    cbn [argmax_from].
  - by rewrite app_nil_r.
  - destruct Hbest as (vc & Hvc & Hall).
    assert (vc = best_v) as -> by congruence.
    assert (Hlt : best < length pre) by (by eapply lookup_lt_Some).
    replace (pre ++ v :: row) with ((pre ++ [v]) ++ row)
      by (by rewrite <- app_assoc).
    replace (S (length pre)) with (length (pre ++ [v]))
      by (rewrite length_app; cbn; lia).
    destruct (float_ltb best_v v) eqn:Hcmp.
    + apply IH; [|by rewrite lookup_app_r, Nat.sub_diag by lia].
      exists v. split; [by rewrite lookup_app_r, Nat.sub_diag by lia|].
      intros j u Hu. destruct (decide (j < length pre)) as [Hj|Hj].
      * rewrite lookup_app_l in Hu by done.
        destruct (Hall j u Hu) as [Hnot _].
        destruct (Hcot best_v v u Hcmp) as [H|H]; [congruence|].
        split; [|done]. destruct (float_ltb v u) eqn:Hvu; [|done].
        pose proof (Htrans _ _ _ Hcmp Hvu). congruence.
      * assert (j = length pre) as ->.
        { apply lookup_lt_Some in Hu. rewrite length_app in Hu. cbn in Hu. lia. }
        rewrite lookup_app_r, Nat.sub_diag in Hu by lia. injection Hu as <-.
        split; [apply Hirr|lia].
    + apply IH; [|by rewrite lookup_app_l].
      exists best_v. split; [by rewrite lookup_app_l|].
      intros j u Hu. destruct (decide (j < length pre)) as [Hj|Hj].
      * rewrite lookup_app_l in Hu by done. by apply Hall.
      * assert (j = length pre) as ->.
        { apply lookup_lt_Some in Hu. rewrite length_app in Hu. cbn in Hu. lia. }
        rewrite lookup_app_r, Nat.sub_diag in Hu by lia. injection Hu as <-.
        split; [done|lia].
Qed.

(** [np.argmax] of a row that is not empty. *)
Lemma argmax_spec (row : list float) : row ≠ [] → first_largest row (argmax row).
Proof.
  destruct row as [|v row]; [done|]. intros _. unfold argmax.
  apply (argmax_from_spec [v] row 0 v); [|reflexivity].
  exists v. split; [reflexivity|]. intros j u Hu.
  destruct j as [|j]; [|by destruct j].
  injection Hu as <-. split; [apply Hord|lia].
Qed.

(** The classes cell 17 predicts: for every test review the first largest
    of its four probabilities. *)
Lemma pred_text_class_spec w (X : list (list Z)) :
  length (pred_text_class w X) = length X
  ∧ ∀ i row c, predict_proba trainer w X !! i = Some row →
      pred_text_class w X !! i = Some c →
      length row = 4
      ∧ ∃ k, c = Z.of_nat k ∧ k < 4 ∧ first_largest row k.
Proof.
  split; [apply pred_text_class_range|].
  intros i row c Hrow Hc. unfold pred_text_class in Hc.
  rewrite list_lookup_fmap, Hrow in Hc. injection Hc as <-.
  unfold predict_proba in Hrow. rewrite list_lookup_fmap in Hrow.
  destruct (X !! i) as [x|]; [|discriminate]. injection Hrow as <-.
  cbv beta. change (pred_dim (model trainer)) with 4.
  assert (Hne : map (class_proba w x) (seq 0 4) ≠ []) by done.
  split; [reflexivity|]. eexists. split; [reflexivity|].
  split; [exact (argmax_lt _ Hne)|by apply argmax_spec].
Qed.

End EpochFacts.

(** C5: on a training frame that is not empty, whose review texts are
    strings and whose ratings are integers, the training call is made
    under the multiclass objective with the metrics [acc] and [f1] and
    returns after exactly one epoch in batches of 64: every encoded review
    with its rating is in one batch, no batch is empty or holds more than
    64 of them, one optimisation step is taken on each batch, and the log
    has one report per batch, numbered from 1, all of epoch 1, each with a
    loss and the two metrics.  The evaluation cell then passes the test
    ratings and, for every test review, the first largest of its four
    class probabilities to the accuracy score and to the F1 score with
    weighted averaging. *)
Theorem C5_one_epoch_and_scores `{B : Backend}
        (pretrained : string → Tokenizer) (w0 : Weights)
        (train test : DataFrame) (tp rp tp' rp' : nat) :
  ordered_floats →
  NoDup (columns train) →
  col_pos "review_text" (columns train) = Some tp →
  Forall (fun r => ∃ s, cell_at tp r = CStr s) (rows train) →
  col_pos "rating" (columns train) = Some rp →
  int_column rp (rows train) →
  rows train ≠ [] →
  NoDup (columns test) →
  col_pos "review_text" (columns test) = Some tp' →
  Forall (fun r => ∃ s, cell_at tp' r = CStr s) (rows test) →
  col_pos "rating" (columns test) = Some rp' →
  int_column rp' (rows test) →
  rows test ≠ [] →
  ∃ X y w log bs,
    X_text_tr2 pretrained train = Ok X
    ∧ length X = length (rows train)
    ∧ map CInt y = map (cell_at rp) (rows train)
    ∧ cell15 pretrained w0 train = Ok (w, log)
    ∧ objective trainer = "multiclass"
    ∧ map metric_name (metrics trainer) = ["acc"; "f1"]
    ∧ concat bs = zip X y
    ∧ Forall (fun b => 1 ≤ length b ≤ 64) bs
    ∧ w = steps w0 bs
    ∧ length log = length bs
    ∧ length (rows train) ≤ 64 * length log < length (rows train) + 64
    ∧ map step log = seq 1 (length log)
    ∧ Forall (fun r => epoch r = 1 ∧ map fst (metric_values r) = ["acc"; "f1"]) log
    ∧ ∃ X' y' pred,
        X_text_te2 pretrained test = Ok X'
        ∧ map CInt y' = map (cell_at rp') (rows test)
        ∧ length pred = length (rows test)
        ∧ (∀ i row c, predict_proba trainer w X' !! i = Some row →
             pred !! i = Some c →
             length row = 4 ∧ ∃ k, c = Z.of_nat k ∧ k < 4 ∧ first_largest row k)
        ∧ cell17 pretrained w test
          = (acc ← accuracy_score y' pred;
             f1 ← f1_score "weighted" y' pred;
             Ok (acc, f1)).
Proof.
  intros Hord _ Htp Hs Hrp Hint _ _ Htp' Hs' Hrp' Hint' _.
  destruct (encode_strings pretrained tokenizer2 (rows train) tp params90 Hs)
    as (texts & Hlen & Henc).
  destruct (int_values_spec rp (rows train) Hint) as (y & Hy & Hycells).
  set (X := pad_batch _ _ _) in Henc.
  assert (HX : length X = length (rows train)).
  { unfold X. rewrite pad_batch_max_length by reflexivity. by rewrite length_map. }
  assert (Hylen : length y = length (rows train)).
  { rewrite <- (length_map CInt y), Hycells. apply length_map. }
  assert (HXtr : X_text_tr2 pretrained train = Ok X)
    by (by rewrite (X_text_tr2_spec _ _ tp Htp)).
  set (bs := batches 64 (zip X y)).
  assert (Hpos : 0 < 64) by lia.
  destruct (batches_spec 64 (zip X y) Hpos) as (Hcat & Hsizes & Hcount).
  fold bs in Hcat, Hsizes, Hcount.
  assert (Hzip : length (zip X y) = length (rows train))
    by (rewrite length_zip_with; lia).
  rewrite Hzip in Hcount.
  destruct (run_batches_log trainer 1 1 bs w0) as (Hl & Hstep & Hall).
  rewrite <- run_one_epoch in Hl, Hstep, Hall.
  exists X, y, (run_epochs trainer 1 1 bs w0).1, (run_epochs trainer 1 1 bs w0).2, bs.
  split; [exact HXtr|]. split; [exact HX|]. split; [exact Hycells|].
  split.
  { unfold cell15. rewrite HXtr, bind_Ok.
    rewrite (getattr_spec _ _ rp Hrp), bind_Ok, Hy, bind_Ok.
    unfold trainer_fit. fold bs. by destruct (run_epochs trainer 1 1 bs w0). }
  split; [reflexivity|]. split; [reflexivity|]. split; [exact Hcat|].
  split; [exact Hsizes|]. split; [apply run_one_epoch_steps|].
  split; [exact Hl|]. split; [by rewrite Hl|]. split; [by rewrite Hstep, Hl|].
  split; [exact Hall|].
  set (w := (run_epochs trainer 1 1 bs w0).1).
  destruct (encode_strings pretrained tokenizer2 (rows test) tp' params90 Hs')
    as (texts' & Hlen' & Henc').
  destruct (int_values_spec rp' (rows test) Hint') as (y' & Hy' & Hycells').
  set (X' := pad_batch _ _ _) in Henc'.
  assert (HX' : length X' = length (rows test)).
  { unfold X'. rewrite pad_batch_max_length by reflexivity. by rewrite length_map. }
  assert (HXte : X_text_te2 pretrained test = Ok X').
  { change (X_text_te2 pretrained test) with (X_text_tr2 pretrained test).
    by rewrite (X_text_tr2_spec _ _ tp' Htp'). }
  destruct (pred_text_class_spec Hord w X') as [Hplen Hpred].
  exists X', y', (pred_text_class w X').
  split; [exact HXte|]. split; [exact Hycells'|].
  split; [by rewrite Hplen|]. split; [exact Hpred|].
  unfold cell17. rewrite HXte, bind_Ok.
  by rewrite (getattr_spec _ _ rp' Hrp'), bind_Ok, Hy', bind_Ok.
Qed.

Lemma C5_one_epoch_and_scores_witness :
  ∃ X y w log bs,
    X_text_tr2 Samples.hub Samples.df2 = Ok X
    ∧ length X = length (rows Samples.df2)
    ∧ map CInt y = map (cell_at 4) (rows Samples.df2)
    ∧ cell15 (B := Samples.toy_backend) Samples.hub 0%Z Samples.df2 = Ok (w, log)
    ∧ objective trainer = "multiclass"
    ∧ map metric_name (metrics trainer) = ["acc"; "f1"]
    ∧ concat bs = zip X y
    ∧ Forall (fun b => 1 ≤ length b ≤ 64) bs
    ∧ w = steps (B := Samples.toy_backend) 0%Z bs
    ∧ length log = length bs
    ∧ length (rows Samples.df2) ≤ 64 * length log < length (rows Samples.df2) + 64
    ∧ map step log = seq 1 (length log)
    ∧ Forall (fun r => epoch r = 1 ∧ map fst (metric_values r) = ["acc"; "f1"]) log
    ∧ ∃ X' y' pred,
        X_text_te2 Samples.hub Samples.df2 = Ok X'
        ∧ map CInt y' = map (cell_at 4) (rows Samples.df2)
        ∧ length pred = length (rows Samples.df2)
        ∧ (∀ i row c,
             predict_proba (B := Samples.toy_backend) trainer w X' !! i = Some row →
             pred !! i = Some c →
             length row = 4
             ∧ ∃ k, c = Z.of_nat k ∧ k < 4
                    ∧ first_largest (B := Samples.toy_backend) row k)
        ∧ cell17 (B := Samples.toy_backend) Samples.hub w Samples.df2
          = (acc ← accuracy_score y' pred;
             f1 ← f1_score "weighted" y' pred;
             Ok (acc, f1)).
Proof.
  apply (C5_one_epoch_and_scores (B := Samples.toy_backend)
           Samples.hub 0%Z Samples.df2 Samples.df2 3 4 3 4).
  - unfold ordered_floats. cbn [float_ltb Samples.toy_backend].
    split; [intros a; apply Z.ltb_irrefl|]. split.
    + intros a b c Hab Hbc. apply Z.ltb_lt in Hab, Hbc. apply Z.ltb_lt. lia.
    + intros a b c Hab. apply Z.ltb_lt in Hab.
      destruct (Z.ltb_spec a c) as [Hac|Hac]; [by left|].
      right. apply Z.ltb_lt. lia.
  - apply (bool_decide_unpack _). vm_compute. exact I.
  - reflexivity.
  - unfold Samples.df2. cbn [rows]. repeat constructor; eexists; reflexivity.
  - reflexivity.
  - unfold int_column, Samples.df2. cbn [rows]. repeat constructor; eexists; reflexivity.
  - discriminate.
  - apply (bool_decide_unpack _). vm_compute. exact I.
  - reflexivity.
  - unfold Samples.df2. cbn [rows]. repeat constructor; eexists; reflexivity.
  - reflexivity.
  - unfold int_column, Samples.df2. cbn [rows]. repeat constructor; eexists; reflexivity.
  - discriminate.
Defined.

(** C9: the prediction dimension of the model is the number of distinct
    labels the rating remap produces, namely 0, 1, 2, 3; so for every test
    input the predicted class, the argmax of the [pred_dim] class
    probabilities, is one of these labels, the remap of some rating
    between 1 and 5. *)
Theorem C9_prediction_labels `{B : Backend} (w : Weights) (X : list (list Z)) :
  Z.of_nat (pred_dim wd_model) = num_class
  ∧ remove_dups (map remap_cell [CInt 1; CInt 2; CInt 3; CInt 4; CInt 5])
    = [CInt 0; CInt 1; CInt 2; CInt 3]
  ∧ length (remove_dups (map remap_cell [CInt 1; CInt 2; CInt 3; CInt 4; CInt 5]))
    = pred_dim wd_model
  ∧ length (pred_text_class w X) = length X
  ∧ Forall (fun c => (0 ≤ c < num_class)%Z
                     ∧ ∃ r, (1 ≤ r ≤ 5)%Z ∧ remap_cell (CInt r) = CInt c)
           (pred_text_class w X).
Proof.
  split; [reflexivity|]. split; [reflexivity|]. split; [reflexivity|].
  destruct (pred_text_class_range w X) as [Hall Hlen].
  split; [exact Hlen|].
  eapply Forall_impl; [exact Hall|]. intros c Hc. cbn beta in Hc. split; [exact Hc|].
  exists (c + 2)%Z. split; [lia|].
  rewrite remap_cell_rating by lia. f_equal. lia.
Qed.

(** *** Missing values and exceptions *)

Lemma traverse_Raise_uniform {A B} (f : A → result B) (e : exn) (xs : list A) :
  Forall (fun x => f x = Raise e ∨ ∃ y, f x = Ok y) xs →
  Exists (fun x => f x = Raise e) xs →
  traverse f xs = Raise e.
Proof.
  induction 1 as [|x xs Hx _ IH]; intros Hex; [by apply Exists_nil in Hex|].
  cbn [traverse]. destruct Hx as [Hx|[y Hx]]; rewrite Hx; [reflexivity|].
  apply Exists_cons in Hex as [Hex|Hex]; [congruence|].
  cbn [bind]. by rewrite (IH Hex).
Qed.

Lemma Exists_filter_bool {A} (P : A → Prop) (f : A → bool) (l : list A) :
  Exists (fun x => P x ∧ f x = true) l → Exists P (List.filter f l).
Proof.
  induction 1 as [x l [HP Hf]|x l _ IH]; cbn [List.filter].
  - rewrite Hf. by left.
  - destruct (f x); [by right|done].
Qed.

(** A missing rating makes the cast of cell 5 fail. *)
Lemma shift_rating_missing df p :
  col_pos "rating" (columns df) = Some p →
  Forall (fun r => ∀ s, cell_at p r ≠ CStr s) (rows df) →
  Exists (fun r => cell_at p r = CNaN) (rows df) →
  shift_rating df = Raise ValueError.
Proof.
  intros Hp Hnum Hnan. unfold shift_rating, getitem. rewrite Hp, bind_Ok.
  unfold series_sub.
  rewrite (traverse_map _ (fun c => match c with
                                    | CInt z => CInt (wrap64 (z - 1))
                                    | _ => CNaN end)).
  2:{ rewrite Forall_map. eapply Forall_impl; [exact Hnum|].
      intros r Hr. cbn beta. destruct (cell_at p r) as [z|s|] eqn:E; try done.
      destruct (Hr s E). }
  rewrite bind_Ok. unfold astype_int64.
  rewrite (traverse_Raise_uniform _ ValueError); [reflexivity| |].
  - apply Forall_true. intros [z|s|]; cbn; eauto.
  - rewrite !Exists_fmap. eapply Exists_impl; [exact Hnan|].
    intros r Hr. unfold compose. cbn beta. by rewrite Hr.
Qed.

Lemma cell5_missing_rating df rp :
  col_pos "rating" (map rename_column (columns df)) = Some rp →
  Forall (fun r => ∀ s, cell_at rp r ≠ CStr s) (rows df) →
  Exists (fun r => cell_at rp r = CNaN) (rows df) →
  cell5 df = Raise ValueError.
Proof.
  intros Hrp Hnum Hnan. unfold cell5, set_columns.
  rewrite length_map, Nat.eqb_refl. cbn [negb]. rewrite bind_Ok.
  by rewrite (shift_rating_missing (mkFrame _ (rows df)) rp Hrp Hnum Hnan).
Qed.

(** A review text that is neither a string nor missing has no [split]. *)
Lemma cell6_malformed_text df tp :
  col_pos "review_text" (columns df) = Some tp →
  Exists (fun r => ∃ z, cell_at tp r = CInt z) (rows df) →
  cell6 df = Raise (AttributeError "split").
Proof.
  intros Htp Hbad. unfold cell6.
  rewrite (getattr_spec df _ tp Htp), bind_Ok.
  unfold getitem_mask, invert, isna. rewrite !length_map, Nat.eqb_refl.
  cbn [negb]. rewrite bind_Ok, !map_map, select_map_mask.
  rewrite (getattr_spec (mkFrame _ _) _ tp Htp), bind_Ok. cbn [rows].
  unfold series_apply.
  rewrite (traverse_Raise_uniform _ (AttributeError "split")); [reflexivity| |].
  - apply Forall_true. intros [z|s|]; cbn; eauto.
  - rewrite Exists_fmap. apply Exists_filter_bool.
    eapply Exists_impl; [exact Hbad|]. intros r [z Hz]. unfold compose. cbn beta.
    by rewrite Hz.
Qed.

Lemma cleaned_texts_are_strings df rp tp :
  rp ≠ tp →
  Forall (fun r' => ∃ s, cell_at tp r' = CStr s)
         (rows (reset_index
                  (mkFrame (map rename_column (columns df))
                           (map (fun r => set_cell rp (remap_cell (cell_at rp r)) r)
                                (List.filter (long_review tp) (rows df)))))).
Proof.
  intros Hne.
  apply (Forall_fmap cells (fun cs => ∃ s, default CNaN (cs !! tp) = CStr s)).
  rewrite rows_reset_index. cbn [rows]. rewrite !Forall_map.
  eapply Forall_impl; [apply Forall_filter_true|].
  intros r Hr. apply long_review_iff in Hr as (s & Hs & _). exists s.
  change (cell_at tp (set_cell rp (remap_cell (cell_at rp r)) r) = CStr s).
  by rewrite cell_at_set_cell_ne.
Qed.

(** C6 as stated fails: the frame of the samples has missing values, one
    of them a missing review text, and cleaning it raises nothing; the row
    without a text is dropped, and a row without a title is kept with its
    missing title. *)
Lemma C6_missing_text_no_exception :
  Exists (fun r => cell_at 3 r = CNaN) (rows Samples.df0)
  ∧ Exists (fun r => cell_at 2 r = CNaN) (rows Samples.df0)
  ∧ clean Samples.df0 = Ok Samples.df2
  ∧ ¬ raises (clean Samples.df0)
  ∧ Forall (fun r => cell_at 3 r ≠ CNaN) (rows Samples.df2)
  ∧ Exists (fun r => cell_at 2 r = CNaN) (rows Samples.df2).
Proof.
  assert (Hclean : clean Samples.df0 = Ok Samples.df2) by (vm_compute; reflexivity).
  split; [|split; [|split; [exact Hclean|split; [|split]]]].
  - unfold Samples.df0. cbn [rows]. right. right. left. reflexivity.
  - unfold Samples.df0. cbn [rows]. right. left. reflexivity.
  - rewrite Hclean. intros [].
  - unfold Samples.df2. cbn [rows]. repeat constructor; discriminate.
  - unfold Samples.df2. cbn [rows]. right. left. reflexivity.
Qed.

(** C6, as the cells have it: the notebook has no handler, so an
    exception raised in a cell is the outcome of the run; a missing
    rating makes the integer cast of cell 5 raise, and a review text that
    is neither a string nor missing makes [split] raise in cell 6.  A
    missing review text raises nothing: cell 6 filters such rows out with
    [isna] before it looks at the text, and the run returns a frame whose
    review texts are all strings. *)
Theorem C6_exceptions_and_missing_text (df : DataFrame) (rp tp : nat) :
  NoDup (map rename_column (columns df)) →
  rectangular df →
  col_pos "rating" (map rename_column (columns df)) = Some rp →
  col_pos "review_text" (map rename_column (columns df)) = Some tp →
  col_pos "review_length" (map rename_column (columns df)) = None →
  (∀ e, cell5 df = Raise e → clean df = Raise e)
  ∧ (∀ d e, cell5 df = Ok d → cell6 d = Raise e → clean df = Raise e)
  ∧ (Forall (fun r => ∀ s, cell_at rp r ≠ CStr s) (rows df) →
     Exists (fun r => cell_at rp r = CNaN) (rows df) →
     clean df = Raise ValueError)
  ∧ (int_column rp (rows df) →
     Exists (fun r => ∃ z, cell_at tp r = CInt z) (rows df) →
     clean df = Raise (AttributeError "split"))
  ∧ (int_column rp (rows df) →
     text_column tp (rows df) →
     ∃ df', clean df = Ok df'
       ∧ length (rows df') = length (List.filter (long_review tp) (rows df))
       ∧ Forall (fun r' => ∃ s, cell_at tp r' = CStr s) (rows df')).
Proof.
  intros _ Hrect Hrp Htp Hfresh.
  assert (Hne : rp ≠ tp).
  { intros ->. by pose proof (col_pos_inj _ _ _ _ Hrp Htp). }
  split; [|split; [|split; [|split]]].
  - intros e He. unfold clean. by rewrite He.
  - intros d e Hd He. unfold clean. by rewrite Hd, bind_Ok.
  - intros Hnum Hnan. unfold clean.
    by rewrite (cell5_missing_rating df rp Hrp Hnum Hnan).
  - intros Hint Hbad. unfold clean. rewrite (cell5_spec df rp Hrp Hint), bind_Ok.
    apply (cell6_malformed_text _ tp); [exact Htp|]. cbn [rows update_col].
    rewrite Exists_fmap. eapply Exists_impl; [exact Hbad|].
    intros r [z Hz]. exists z. unfold compose. cbn beta. by rewrite cell_at_set_cell_ne.
  - intros Hint Htext. eexists.
    split; [exact (clean_spec df rp tp Hrect Hrp Htp Hfresh Hint Htext)|].
    split; [|by apply cleaned_texts_are_strings].
    unfold reset_index. cbn [rows]. by rewrite length_imap, length_map.
Qed.

Lemma C6_exceptions_and_missing_text_witness :
  (∀ e, cell5 Samples.df0 = Raise e → clean Samples.df0 = Raise e)
  ∧ (∀ d e, cell5 Samples.df0 = Ok d → cell6 d = Raise e → clean Samples.df0 = Raise e)
  ∧ (Forall (fun r => ∀ s, cell_at 4 r ≠ CStr s) (rows Samples.df0) →
     Exists (fun r => cell_at 4 r = CNaN) (rows Samples.df0) →
     clean Samples.df0 = Raise ValueError)
  ∧ (int_column 4 (rows Samples.df0) →
     Exists (fun r => ∃ z, cell_at 3 r = CInt z) (rows Samples.df0) →
     clean Samples.df0 = Raise (AttributeError "split"))
  ∧ (int_column 4 (rows Samples.df0) →
     text_column 3 (rows Samples.df0) →
     ∃ df', clean Samples.df0 = Ok df'
       ∧ length (rows df') = length (List.filter (long_review 3) (rows Samples.df0))
       ∧ Forall (fun r' => ∃ s, cell_at 3 r' = CStr s) (rows df')).
Proof.
  apply (C6_exceptions_and_missing_text Samples.df0 4 3).
  - apply (bool_decide_unpack _). vm_compute. exact I.
  - unfold rectangular. simpl. repeat constructor.
  - reflexivity.
  - reflexivity.
  - reflexivity.
Defined.

(** *** The cells on the small frames *)

Example rename_columns_loaded :
  map rename_column womens_ecommerce_columns
  = ["clothing_id"; "age"; "title"; "review_text"; "rating";
     "recommended_ind"; "positive_feedback_count"; "division_name";
     "department_name"; "class_name"].
Proof. reflexivity. Qed.

Example split_two_spaces : split space "a  b" = ["a"; EmptyString; "b"].
Proof. reflexivity. Qed.

Example split_empty : split space EmptyString = [EmptyString].
Proof. reflexivity. Qed.

Example remap_ratings :
  map remap_cell [CInt 1; CInt 2; CInt 3; CInt 4; CInt 5]
  = [CInt 0; CInt 0; CInt 1; CInt 2; CInt 3].
Proof. reflexivity. Qed.

Example clean_samples : clean Samples.df0 = Ok Samples.df2.
Proof. vm_compute. reflexivity. Qed.

Example shape_cleaned_samples : shape Samples.df2 = (2, 10).
Proof. reflexivity. Qed.

Example cell9_on_two_rows : cell9 Samples.df2 Samples.st0 = Raise ValueError.
Proof. vm_compute. reflexivity. Qed.

Example steps_of_the_training_call : num_batches 800 64 = 13.
Proof. reflexivity. Qed.

Example steps_of_the_prediction_call : num_batches 200 64 = 4.
Proof. reflexivity. Qed.

Example encode_short_review :
  encode_text Samples.toy_tokenizer params90 "a  b  c"
  = [101; 1001; 1000; 1001; 1000; 1001; 102]%Z ++ replicate 83 0%Z.
Proof. vm_compute. reflexivity. Qed.

(** ** Further properties of the cells *)

(** *** Renaming the columns *)

Lemma rename_column_chars s : chars (rename_column s) = map rename_char (chars s).
Proof.
  unfold rename_column, chars.
  induction s as [|c s IH]; cbn [replace_char lower list_ascii_of_string map];
    [reflexivity|].
  by rewrite IH.
Qed.

Lemma rename_char_plain c :
  rename_char c ≠ space ∧ is_upper (rename_char c) = false
  ∧ rename_char (rename_char c) = rename_char c.
Proof. destruct c as [[] [] [] [] [] [] [] []]; vm_compute; by repeat split. Qed.

Lemma chars_inj s t : chars s = chars t → s = t.
Proof.
  unfold chars. intros H.
  by rewrite <- (string_of_list_ascii_of_string s), H, string_of_list_ascii_of_string.
Qed.

(** X1: a renamed column label of ASCII characters has as many
    characters as the label it comes from, none of them a space or an
    upper-case letter, and renaming it again changes nothing. *)
Theorem X1_rename_column_plain (s : string) :
  is_ascii_label s = true →
  String.length (rename_column s) = String.length s
  ∧ Forall (fun c => c ≠ space ∧ is_upper c = false) (chars (rename_column s))
  ∧ is_ascii_label (rename_column s) = true
  ∧ rename_column (rename_column s) = rename_column s.
Proof.
  intros Hascii. split; [|split; [|split]].
  - clear Hascii. unfold rename_column.
    induction s as [|c s IH]; cbn; congruence.
  - rewrite rename_column_chars, Forall_map. apply Forall_true. intros c.
    destruct (rename_char_plain c) as (H1 & H2 & _). done.
  - unfold is_ascii_label in *. rewrite rename_column_chars.
    rewrite forallb_forall in *. intros c' Hc'.
    apply in_map_iff in Hc' as (c & <- & Hc). specialize (Hascii c Hc).
    revert Hascii. clear.
    destruct c as [[] [] [] [] [] [] [] []]; vm_compute; intros H;
      first [reflexivity|discriminate H].
  - apply chars_inj. rewrite !rename_column_chars, map_map.
    apply map_ext. intros c. apply rename_char_plain.
Qed.

Lemma X1_rename_column_plain_witness :
  String.length (rename_column "Review Text") = String.length "Review Text"
  ∧ Forall (fun c => c ≠ space ∧ is_upper c = false)
           (chars (rename_column "Review Text"))
  ∧ is_ascii_label (rename_column "Review Text") = true
  ∧ rename_column (rename_column "Review Text") = rename_column "Review Text".
Proof. apply (X1_rename_column_plain "Review Text"). reflexivity. Defined.

(** *** [split] *)

Lemma join_cons sep w ws :
  ws ≠ [] → join sep (w :: ws) = String.append w (String sep (join sep ws)).
Proof. destruct ws; [done|reflexivity]. Qed.

(** X2: the pieces [split] cuts a text into at a one-byte separator hold
    no separator, and joined with the separator they give the text back. *)
Theorem X2_split_join (sep : ascii) (s : string) :
  join sep (split sep s) = s
  ∧ Forall (fun w => count_char sep w = 0) (split sep s).
Proof.
  induction s as [|c s [IHj IHf]]; [by repeat constructor|].
  cbn [split]. destruct (Ascii.eqb c sep) eqn:E.
  - apply Ascii.eqb_eq in E as ->. split.
    + rewrite join_cons by apply split_nonempty. by rewrite IHj.
    + by constructor.
  - pose proof (split_nonempty sep s) as Hne.
    destruct (split sep s) as [|w ws]; [done|]. split.
    + destruct ws as [|w' ws]; cbn [join] in *; by rewrite <- IHj.
    + apply Forall_cons in IHf as [Hw Hws]. constructor; [|done].
      cbn [count_char]. by rewrite E, Hw.
Qed.

(** *** Cell 5 on any rating column *)

Lemma int_column_cell_at p (rs : list Row) :
  Forall (fun r => is_int (cell_at p r) = true) rs → int_column p rs.
Proof.
  intros H. eapply Forall_impl; [exact H|]. intros r. unfold cell_at.
  destruct (cells r !! p) as [[z|s|]|]; cbn; try discriminate. eauto.
Qed.

Lemma shift_rating_string df p :
  col_pos "rating" (columns df) = Some p →
  Exists (fun r => is_str (cell_at p r) = true) (rows df) →
  shift_rating df = Raise TypeError.
Proof.
  intros Hp Hstr. unfold shift_rating, getitem. rewrite Hp, bind_Ok.
  unfold series_sub.
  rewrite (traverse_Raise_uniform _ TypeError); [reflexivity| |].
  - apply Forall_true. intros [z|s|]; cbn; eauto.
  - rewrite Exists_fmap. eapply Exists_impl; [exact Hstr|].
    intros r. unfold compose. by destruct (cell_at p r).
Qed.

Lemma cell5_first_step df :
  cell5 df
  = (d ← shift_rating (mkFrame (map rename_column (columns df)) (rows df));
     s ← getattr d "rating";
     d ← loc_set d (series_eq s 0) "rating" (CInt 1);
     shift_rating d).
Proof.
  unfold cell5, set_columns. rewrite length_map, Nat.eqb_refl. reflexivity.
Qed.

(** X3: on a rating column of [int64] integers, strings and missing
    values: when every rating is an integer cell 5 returns; a rating that
    is a string makes the subtraction raise [TypeError]; without strings,
    a missing rating makes the cast raise [ValueError].  Ratings that are
    floats or integers outside [int64] are not modelled. *)
Theorem X3_cell5_outcome (df : DataFrame) (p : nat) :
  NoDup (map rename_column (columns df)) →
  col_pos "rating" (map rename_column (columns df)) = Some p →
  Forall (fun r => fits_int64 (cell_at p r) = true) (rows df) →
  (Forall (fun r => is_int (cell_at p r) = true) (rows df) →
   ∃ d, cell5 df = Ok d)
  ∧ (Exists (fun r => is_str (cell_at p r) = true) (rows df) →
     cell5 df = Raise TypeError)
  ∧ (Forall (fun r => is_str (cell_at p r) = false) (rows df) →
     Exists (fun r => cell_at p r = CNaN) (rows df) →
     cell5 df = Raise ValueError).
Proof.
  intros _ Hp _. split; [|split].
  - intros Hint. eexists. apply (cell5_spec df p Hp). by apply int_column_cell_at.
  - intros Hs. rewrite cell5_first_step.
    by rewrite (shift_rating_string (mkFrame _ (rows df)) p Hp Hs).
  - intros Hns Hn. apply (cell5_missing_rating df p Hp); [|exact Hn].
    eapply Forall_impl; [exact Hns|]. intros r Hr s Hs. cbn beta in Hr.
    by rewrite Hs in Hr.
Qed.

Lemma X3_cell5_outcome_witness :
  (Forall (fun r => is_int (cell_at 4 r) = true) (rows Samples.df0) →
   ∃ d, cell5 Samples.df0 = Ok d)
  ∧ (Exists (fun r => is_str (cell_at 4 r) = true) (rows Samples.df0) →
     cell5 Samples.df0 = Raise TypeError)
  ∧ (Forall (fun r => is_str (cell_at 4 r) = false) (rows Samples.df0) →
     Exists (fun r => cell_at 4 r = CNaN) (rows Samples.df0) →
     cell5 Samples.df0 = Raise ValueError).
Proof.
  apply (X3_cell5_outcome Samples.df0 4).
  - apply (bool_decide_unpack _). vm_compute. exact I.
  - reflexivity.
  - unfold Samples.df0. cbn [rows]. repeat constructor.
Defined.

Lemma shift_rating_no_column df :
  col_pos "rating" (columns df) = None →
  shift_rating df = Raise (KeyError "rating").
Proof. intros Hp. unfold shift_rating, getitem. by rewrite Hp. Qed.

(** X4: when no column is called [rating] after the renaming, cell 5, and
    with it the cleaning, ends with [KeyError] on that name. *)
Theorem X4_missing_rating_column (df : DataFrame) :
  NoDup (map rename_column (columns df)) →
  col_pos "rating" (map rename_column (columns df)) = None →
  cell5 df = Raise (KeyError "rating")
  ∧ clean df = Raise (KeyError "rating").
Proof.
  intros _ Hp.
  assert (H5 : cell5 df = Raise (KeyError "rating")).
  { rewrite cell5_first_step.
    by rewrite (shift_rating_no_column (mkFrame _ (rows df)) Hp). }
  split; [exact H5|]. unfold clean. by rewrite H5.
Qed.

Lemma X4_missing_rating_column_witness :
  cell5 Frames.no_rating = Raise (KeyError "rating")
  ∧ clean Frames.no_rating = Raise (KeyError "rating").
Proof.
  apply (X4_missing_rating_column Frames.no_rating).
  - apply (bool_decide_unpack _). vm_compute. exact I.
  - reflexivity.
Defined.

(** X5: when the ratings are integers but no column is called
    [review_text], cell 5 returns and cell 6 ends the cleaning with
    [AttributeError] on that name. *)
Theorem X5_missing_text_column (df : DataFrame) (rp : nat) :
  NoDup (map rename_column (columns df)) →
  col_pos "rating" (map rename_column (columns df)) = Some rp →
  int_column rp (rows df) →
  col_pos "review_text" (map rename_column (columns df)) = None →
  (∃ d, cell5 df = Ok d)
  ∧ clean df = Raise (AttributeError "review_text").
Proof.
  intros _ Hrp Hint Htp. split; [eexists; exact (cell5_spec df rp Hrp Hint)|].
  unfold clean. rewrite (cell5_spec df rp Hrp Hint), bind_Ok.
  unfold cell6, getattr. cbn [columns update_col]. by rewrite Htp.
Qed.

Lemma X5_missing_text_column_witness :
  (∃ d, cell5 Frames.no_text = Ok d)
  ∧ clean Frames.no_text = Raise (AttributeError "review_text").
Proof.
  apply (X5_missing_text_column Frames.no_text 1).
  - apply (bool_decide_unpack _). vm_compute. exact I.
  - reflexivity.
  - unfold int_column. simpl. repeat constructor; eexists; reflexivity.
  - reflexivity.
Defined.

Lemma wrap64_small z : (int64_min ≤ z ≤ int64_max)%Z → wrap64 z = z.
Proof.
  unfold int64_min, int64_max, wrap64. intros Hz.
  rewrite Z.mod_small by lia. lia.
Qed.

Lemma remap_cell_any (z : Z) :
  (int64_min + 2 ≤ z ≤ int64_max)%Z →
  remap_cell (CInt z) = CInt (if (z =? 1)%Z then 0 else z - 2).
Proof.
  intros Hz. unfold int64_min, int64_max in Hz.
  unfold remap_cell. cbn [shifted].
  rewrite !(wrap64_small (z - 1)) by (unfold int64_min, int64_max; lia).
  destruct (Z.eqb_spec z 1) as [->|Hne]; [reflexivity|].
  unfold grouped. rewrite bool_decide_eq_false_2 by (intros [= H]; lia).
  cbn [shifted].
  rewrite !(wrap64_small (z - 1 - 1)) by (unfold int64_min, int64_max; lia).
  f_equal. lia.
Qed.

(** X6: cell 5 does not check the ratings.  Any integer rating [z] whose
    two decrements stay inside [int64] becomes 0 when it is 1 and [z - 2]
    otherwise, so the result is one of the class labels 0..3 exactly when
    the rating was between 1 and 5: a rating 0 becomes -2, a rating 6
    becomes 4. *)
Theorem X6_ratings_not_checked (df : DataFrame) (p : nat) :
  NoDup (map rename_column (columns df)) →
  col_pos "rating" (map rename_column (columns df)) = Some p →
  int_column p (rows df) →
  ∃ d, cell5 df = Ok d
    ∧ ∀ (i : nat) (r : Row) (z : Z),
        rows df !! i = Some r → cells r !! p = Some (CInt z) →
        (int64_min + 2 ≤ z ≤ int64_max)%Z →
        ∃ r' c, rows d !! i = Some r'
          ∧ cells r' !! p = Some (CInt c)
          ∧ c = (if (z =? 1)%Z then 0 else z - 2)%Z
          ∧ ((0 ≤ c < num_class)%Z ↔ (1 ≤ z ≤ 5)%Z).
Proof.
  intros _ Hp Hint. eexists. split; [exact (cell5_spec df p Hp Hint)|].
  intros i r z Hr Hz Hrange. cbn [rows update_col].
  exists (set_cell p (remap_cell (cell_at p r)) r),
         (if (z =? 1)%Z then 0 else z - 2)%Z.
  split; [by rewrite list_lookup_fmap, Hr|].
  rewrite (cell_at_lookup _ _ _ Hz), (remap_cell_any z Hrange). cbn [cells set_cell].
  split; [apply list_lookup_insert_eq; by eapply lookup_lt_Some|].
  split; [reflexivity|]. unfold num_class.
  destruct (Z.eqb_spec z 1); lia.
Qed.

Lemma X6_ratings_not_checked_witness :
  ∃ d, cell5 Samples.df0 = Ok d
    ∧ ∀ (i : nat) (r : Row) (z : Z),
        rows Samples.df0 !! i = Some r → cells r !! 4 = Some (CInt z) →
        (int64_min + 2 ≤ z ≤ int64_max)%Z →
        ∃ r' c, rows d !! i = Some r'
          ∧ cells r' !! 4 = Some (CInt c)
          ∧ c = (if (z =? 1)%Z then 0 else z - 2)%Z
          ∧ ((0 ≤ c < num_class)%Z ↔ (1 ≤ z ≤ 5)%Z).
Proof.
  apply (X6_ratings_not_checked Samples.df0 4).
  - apply (bool_decide_unpack _). vm_compute. exact I.
  - reflexivity.
  - unfold int_column. simpl. repeat constructor; eexists; reflexivity.
Defined.

(** *** Cell 6: index, repetition, invariants *)

Lemma labels_imap (f : nat → Z) (rs : list Row) :
  map label (imap (fun i r => mkRow (f i) (cells r)) rs)
  = map f (seq 0 (length rs)).
Proof.
  revert f. induction rs as [|r rs IH]; intros f; [reflexivity|].
  cbn [imap map length seq label]. f_equal.
  rewrite <- fmap_S_seq, <- list_fmap_compose. apply (IH (f ∘ S)).
Qed.

Lemma labels_reset_index df :
  labels (reset_index df) = map Z.of_nat (seq 0 (length (rows df)))
  ∧ length (rows (reset_index df)) = length (rows df).
Proof.
  unfold labels, reset_index. cbn [rows]. split; [apply labels_imap|].
  apply length_imap.
Qed.

Lemma cell6_is_reset df d : cell6 df = Ok d → ∃ d0, d = reset_index d0.
Proof.
  unfold cell6. intros H.
  repeat (apply bind_inv_Ok in H as (? & _ & H)).
  injection H as <-. eauto.
Qed.

(** X7: whenever cell 6 returns, the index of its frame is
    [0, 1, ..., n-1]; no label occurs twice. *)
Theorem X7_cell6_index (df d : DataFrame) :
  cell6 df = Ok d →
  labels d = map Z.of_nat (seq 0 (length (rows d)))
  ∧ NoDup (labels d).
Proof.
  intros H. apply cell6_is_reset in H as [d0 ->].
  destruct (labels_reset_index d0) as [Hl Hn].
  assert (Heq : labels (reset_index d0)
                = map Z.of_nat (seq 0 (length (rows (reset_index d0)))))
    by (by rewrite Hn).
  split; [exact Heq|]. rewrite Heq.
  apply NoDup_fmap; [apply Nat2Z.inj'|apply NoDup_seq].
Qed.

Lemma X7_cell6_index_witness :
  labels Samples.df2 = map Z.of_nat (seq 0 (length (rows Samples.df2)))
  ∧ NoDup (labels Samples.df2).
Proof.
  apply (X7_cell6_index Samples.df1 Samples.df2). vm_compute. reflexivity.
Defined.

Lemma filter_all_true {A} (f : A → bool) (l : list A) :
  Forall (fun x => f x = true) l → List.filter f l = l.
Proof. induction 1 as [|x l Hx _ IH]; cbn; [done|]. by rewrite Hx, IH. Qed.

Lemma imap_reset_twice (rs : list Row) :
  imap (fun i r => mkRow (Z.of_nat i) (cells r))
       (imap (fun i r => mkRow (Z.of_nat i) (cells r)) rs)
  = imap (fun i r => mkRow (Z.of_nat i) (cells r)) rs.
Proof.
  apply list_eq. intros i. rewrite !list_lookup_imap.
  by destruct (rs !! i).
Qed.

Lemma Forall_cells (P : list Cell → Prop) (rs rs' : list Row) :
  map cells rs = map cells rs' →
  Forall (fun r => P (cells r)) rs' → Forall (fun r => P (cells r)) rs.
Proof.
  intros Heq H. apply Forall_map. rewrite Heq. by apply Forall_map.
Qed.

(** X8: dropping the short reviews twice is dropping them once: on the
    frame cell 6 returns, cell 6 returns that same frame. *)
Theorem X8_cell6_idempotent (df : DataFrame) (tp : nat) :
  NoDup (columns df) →
  rectangular df →
  col_pos "review_text" (columns df) = Some tp →
  col_pos "review_length" (columns df) = None →
  text_column tp (rows df) →
  ∃ d, cell6 df = Ok d ∧ cell6 d = Ok d.
Proof.
  intros _ Hrect Htp Hfresh Htext.
  set (kept := List.filter (long_review tp) (rows df)).
  set (d := reset_index (mkFrame (columns df) kept)).
  assert (Hd : cell6 df = Ok d) by exact (cell6_spec df tp Hrect Htp Hfresh Htext).
  assert (Hcells : map cells (rows d) = map cells kept) by apply rows_reset_index.
  assert (Hlong : Forall (fun r => long_review tp r = true) (rows d)).
  { apply (Forall_cells (fun cs => match default CNaN (cs !! tp) with
                                   | CStr s => 5 <=? length (split space s)
                                   | _ => false end = true) _ kept Hcells).
    apply Forall_filter_true. }
  exists d. split; [exact Hd|].
  rewrite (cell6_spec d tp); [| |exact Htp|exact Hfresh|].
  - rewrite (filter_all_true _ _ Hlong). unfold d, reset_index. cbn [columns rows].
    by rewrite imap_reset_twice.
  - apply (Forall_cells (fun cs => length cs = length (columns df)) _ kept Hcells).
    by apply Forall_filter_bool.
  - apply (Forall_cells (fun cs => is_text (default CNaN (cs !! tp)) = true)
             _ kept Hcells).
    by apply Forall_filter_bool.
Qed.

Lemma X8_cell6_idempotent_witness :
  ∃ d, cell6 Samples.df1 = Ok d ∧ cell6 d = Ok d.
Proof.
  apply (X8_cell6_idempotent Samples.df1 3).
  - apply (bool_decide_unpack _). vm_compute. exact I.
  - unfold rectangular. simpl. repeat constructor.
  - reflexivity.
  - reflexivity.
  - unfold text_column. simpl. repeat constructor.
Defined.

(** The cells of the cleaned frame. *)
Lemma clean_cells df rp tp :
  rectangular df →
  col_pos "rating" (map rename_column (columns df)) = Some rp →
  col_pos "review_text" (map rename_column (columns df)) = Some tp →
  col_pos "review_length" (map rename_column (columns df)) = None →
  int_column rp (rows df) →
  text_column tp (rows df) →
  ∃ d, clean df = Ok d
    ∧ columns d = map rename_column (columns df)
    ∧ map cells (rows d)
      = map (fun r => <[rp := remap_cell (cell_at rp r)]> (cells r))
            (List.filter (long_review tp) (rows df)).
Proof.
  intros Hrect Hrp Htp Hfresh Hint Htext. eexists.
  split; [exact (clean_spec df rp tp Hrect Hrp Htp Hfresh Hint Htext)|].
  split; [reflexivity|].
  rewrite rows_reset_index. cbn [rows]. by rewrite map_map.
Qed.

(** X9: the frame the cleaning returns is again a frame the later cells
    accept: as wide as the loaded frame and not longer, with distinct
    labels, one cell per column in every row, integers in the rating
    column and strings in the review text column. *)
Theorem X9_clean_keeps_frame (df : DataFrame) (rp tp : nat) :
  NoDup (map rename_column (columns df)) →
  rectangular df →
  col_pos "rating" (map rename_column (columns df)) = Some rp →
  col_pos "review_text" (map rename_column (columns df)) = Some tp →
  col_pos "review_length" (map rename_column (columns df)) = None →
  int_column rp (rows df) →
  text_column tp (rows df) →
  ∃ d, clean df = Ok d
    ∧ snd (shape d) = snd (shape df)
    ∧ fst (shape d) ≤ fst (shape df)
    ∧ NoDup (columns d)
    ∧ rectangular d
    ∧ col_pos "rating" (columns d) = Some rp
    ∧ col_pos "review_text" (columns d) = Some tp
    ∧ int_column rp (rows d)
    ∧ Forall (fun r => ∃ s, cell_at tp r = CStr s) (rows d).
Proof.
  intros Hnd Hrect Hrp Htp Hfresh Hint Htext.
  assert (Hne : rp ≠ tp).
  { intros ->. by pose proof (col_pos_inj _ _ _ _ Hrp Htp). }
  destruct (clean_cells df rp tp Hrect Hrp Htp Hfresh Hint Htext)
    as (d & Hd & Hcols & Hcells).
  exists d. split; [exact Hd|]. unfold shape, rectangular. rewrite Hcols. cbn [fst snd].
  assert (Hlen : length (rows d) = length (List.filter (long_review tp) (rows df))).
  { by rewrite <- (length_map cells), Hcells, length_map. }
  set (g := fun r : Row => mkRow (label r) (<[rp := remap_cell (cell_at rp r)]> (cells r))).
  assert (Hcells' : map cells (rows d)
                    = map cells (map g (List.filter (long_review tp) (rows df))))
    by (by rewrite Hcells, map_map).
  split; [by rewrite length_map|].
  split; [rewrite Hlen; apply List.filter_length_le|].
  split; [exact Hnd|].
  split; [|split; [exact Hrp|split; [exact Htp|split]]].
  - apply (Forall_cells (fun cs => length cs = length (map rename_column (columns df)))
             _ _ Hcells').
    rewrite Forall_map. apply Forall_filter_bool.
    eapply Forall_impl; [exact Hrect|]. intros r Hr. cbn.
    by rewrite length_insert, length_map.
  - apply (Forall_cells (fun cs => ∃ z, cs !! rp = Some (CInt z)) _ _ Hcells').
    rewrite Forall_map. apply Forall_filter_bool.
    eapply Forall_impl; [exact Hint|]. intros r [z Hz]. cbn.
    rewrite (cell_at_lookup _ _ _ Hz). destruct (remap_cell_int z) as [z' ->].
    exists z'. apply list_lookup_insert_eq. by eapply lookup_lt_Some.
  - apply (Forall_cells (fun cs => ∃ s, default CNaN (cs !! tp) = CStr s) _ _ Hcells').
    rewrite Forall_map.
    eapply Forall_impl; [apply Forall_filter_true|].
    intros r Hr. apply long_review_iff in Hr as (s & Hs & _). exists s. cbn.
    rewrite list_lookup_insert_ne by done. exact Hs.
Qed.

Lemma X9_clean_keeps_frame_witness :
  ∃ d, clean Samples.df0 = Ok d
    ∧ snd (shape d) = snd (shape Samples.df0)
    ∧ fst (shape d) ≤ fst (shape Samples.df0)
    ∧ NoDup (columns d)
    ∧ rectangular d
    ∧ col_pos "rating" (columns d) = Some 4
    ∧ col_pos "review_text" (columns d) = Some 3
    ∧ int_column 4 (rows d)
    ∧ Forall (fun r => ∃ s, cell_at 3 r = CStr s) (rows d).
Proof.
  apply (X9_clean_keeps_frame Samples.df0 4 3).
  - apply (bool_decide_unpack _). vm_compute. exact I.
  - unfold rectangular. simpl. repeat constructor.
  - reflexivity.
  - reflexivity.
  - reflexivity.
  - unfold int_column. simpl. repeat constructor; eexists; reflexivity.
  - unfold text_column. simpl. repeat constructor.
Defined.

(** X10: when the loaded ratings are between 1 and 5, every review that
    the cleaning keeps, and so every review that reaches the subsample
    through cells 5, 6 and 9, carries one of the class labels 0..3,
    whatever the random draws are. *)
Theorem X10_sampled_ratings_are_labels (df : DataFrame) (rp tp : nat) :
  NoDup (map rename_column (columns df)) →
  rectangular df →
  col_pos "rating" (map rename_column (columns df)) = Some rp →
  col_pos "review_text" (map rename_column (columns df)) = Some tp →
  col_pos "review_length" (map rename_column (columns df)) = None →
  Forall (fun r => ∃ z, cells r !! rp = Some (CInt z) ∧ (1 ≤ z ≤ 5)%Z) (rows df) →
  text_column tp (rows df) →
  ∃ d, clean df = Ok d
    ∧ Forall (class_label rp) (rows d)
    ∧ ∀ st final st', cell9 d st = Ok (final, st') →
        Forall (class_label rp) (rows final).
Proof.
  intros _ Hrect Hrp Htp Hfresh Hrat Htext.
  assert (Hint : int_column rp (rows df)).
  { eapply Forall_impl; [exact Hrat|]. intros r (z & Hz & _). eauto. }
  destruct (clean_cells df rp tp Hrect Hrp Htp Hfresh Hint Htext)
    as (d & Hd & Hcols & Hcells).
  exists d. split; [exact Hd|].
  set (g := fun r : Row => mkRow (label r) (<[rp := remap_cell (cell_at rp r)]> (cells r))).
  assert (Hcells' : map cells (rows d)
                    = map cells (map g (List.filter (long_review tp) (rows df))))
    by (by rewrite Hcells, map_map).
  assert (Hlab : Forall (class_label rp) (rows d)).
  { apply (Forall_cells (fun cs => ∃ c, default CNaN (cs !! rp) = CInt c
                                        ∧ (0 ≤ c < num_class)%Z) _ _ Hcells').
    rewrite Forall_map. apply Forall_filter_bool.
    eapply Forall_impl; [exact Hrat|]. intros r (z & Hz & Hrange). cbn.
    rewrite (cell_at_lookup _ _ _ Hz), (remap_cell_rating z Hrange).
    exists (Z.max (z - 2) 0).
    rewrite list_lookup_insert_eq by (by eapply lookup_lt_Some).
    split; [reflexivity|unfold num_class; lia]. }
  split; [exact Hlab|].
  intros st final st' Hfinal.
  apply Forall_forall. intros r Hr.
  rewrite Forall_forall in Hlab. apply Hlab.
  eapply (cell9_rows d rp st final st'); [by rewrite Hcols| |exact Hfinal|exact Hr].
  apply Forall_forall. intros r0 Hr0. destruct (Hlab r0 Hr0) as (c & Hc & _).
  exists c. unfold cell_at in Hc.
  destruct (cells r0 !! rp) as [c0|]; cbn in Hc; [by subst|discriminate].
Qed.

Lemma X10_sampled_ratings_are_labels_witness :
  ∃ d, clean Samples.df0 = Ok d
    ∧ Forall (class_label 4) (rows d)
    ∧ ∀ st final st', cell9 d st = Ok (final, st') →
        Forall (class_label 4) (rows final).
Proof.
  apply (X10_sampled_ratings_are_labels Samples.df0 4 3).
  - apply (bool_decide_unpack _). vm_compute. exact I.
  - unfold rectangular. simpl. repeat constructor.
  - reflexivity.
  - reflexivity.
  - reflexivity.
  - simpl. repeat constructor; eexists; (split; [reflexivity|lia]).
  - unfold text_column. simpl. repeat constructor.
Defined.

(** *** Drawing rows *)

Lemma submseteq_NoDup_l {A} (l k : list A) : l ⊆+ k → NoDup k → NoDup l.
Proof.
  intros Hsub Hnd. apply submseteq_sublist_r in Hsub as (l' & Hp & Hs).
  rewrite Hp. by eapply sublist_NoDup.
Qed.

Lemma filter_bool_submseteq {A} (f : A → bool) (l : list A) : List.filter f l ⊆+ l.
Proof.
  induction l as [|x l IH]; cbn; [done|].
  destruct (f x); [by apply submseteq_skip|by apply submseteq_cons].
Qed.

(** X11: [df.sample(n)] returns exactly when the frame has at least [n]
    rows and raises [ValueError] otherwise.  What it returns has the
    columns of the frame and [n] of its rows, none taken more often than
    it occurs, so distinct labels stay distinct; when [n] is the size of
    the frame the draw is a reordering of the frame.  This holds whatever
    the random draws are. *)
Theorem X11_sample_without_replacement
        (df : DataFrame) (n : nat) (st : RandomState) :
  ((∃ d st', sample df n st = Ok (d, st')) ↔ n ≤ length (rows df))
  ∧ (sample df n st = Raise ValueError ↔ length (rows df) < n)
  ∧ ∀ d st', sample df n st = Ok (d, st') →
      columns d = columns df
      ∧ length (rows d) = n
      ∧ rows d ⊆+ rows df
      ∧ (NoDup (labels df) → NoDup (labels d))
      ∧ (n = length (rows df) → rows d ≡ₚ rows df).
Proof.
  split; [|split].
  - split.
    + intros (d & st' & H). by apply sample_inv in H as [H _].
    + intros H. rewrite (sample_Ok df n st H). eauto.
  - split.
    + intros H. destruct (Nat.lt_ge_cases (length (rows df)) n) as [Hlt|Hge]; [done|].
      rewrite (sample_Ok df n st Hge) in H. discriminate.
    + apply sample_Raise.
  - intros d st' H. pose proof H as Hinv. apply sample_inv in Hinv as [Hn ->].
    rewrite (sample_Ok df n st Hn) in H. apply Ok_pair_inv in H as [_ <-].
    cbn [columns rows consumed].
    assert (Hsub : choose n (draws st) (consumed st) (rows df) ⊆+ rows df)
      by apply choose_submseteq.
    assert (Hlen : length (choose n (draws st) (consumed st) (rows df)) = n)
      by (by apply length_choose).
    repeat split; try done.
    + intros Hnd. unfold labels in *. cbn [rows].
      eapply submseteq_NoDup_l; [|exact Hnd]. by apply fmap_submseteq.
    + intros ->. apply submseteq_length_Permutation; [done|]. by rewrite Hlen.
Qed.

Lemma in_keys_key p key keys r :
  cell_at p r = CInt key → in_keys p keys r = true → key ∈ keys.
Proof.
  intros Hr Hin. apply existsb_exists in Hin as (k & Hk & Hb).
  apply bool_decide_eq_true in Hb. rewrite Hr in Hb. injection Hb as ->.
  by apply list_elem_of_In.
Qed.

Lemma groups_submseteq p key keys (rs : list Row) :
  key ∉ keys →
  group_rows p key rs ++ List.filter (in_keys p keys) rs
  ⊆+ List.filter (in_keys p (key :: keys)) rs.
Proof.
  intros Hnotin. unfold group_rows.
  induction rs as [|r rs IH]; [done|].
  cbn [List.filter in_keys existsb].
  fold (in_keys p keys r).
  destruct (bool_decide (cell_at p r = CInt key)) eqn:Ek.
  - apply bool_decide_eq_true in Ek.
    destruct (in_keys p keys r) eqn:Ei.
    + destruct Hnotin. by eapply in_keys_key.
    + cbn [orb app]. by apply submseteq_skip.
  - destruct (in_keys p keys r) eqn:Ei; cbn [orb]; [|exact IH].
    rewrite <- Permutation_middle. by apply submseteq_skip.
Qed.

Section BalanceRows.
Variable cap : nat.

Lemma balanced_rows_submseteq p rs g k keys :
  NoDup keys → balanced_rows cap p rs g k keys ⊆+ rs.
Proof.
  intros Hnd. trans (List.filter (in_keys p keys) rs);
    [|apply filter_bool_submseteq].
  revert k. induction Hnd as [|key keys Hnotin Hnd IH]; intros k;
    cbn [balanced_rows].
  - apply submseteq_nil_l.
  - etrans; [|by apply groups_submseteq].
    apply submseteq_app; [apply choose_submseteq|apply IH].
  Qed.

Lemma group_rows_nil p z (rs : list Row) :
  class_count p z rs = 0 → group_rows p z rs = [].
Proof. unfold class_count. by destruct (group_rows p z rs). Qed.

Lemma group_rows_app p z (l1 l2 : list Row) :
  group_rows p z (l1 ++ l2) = group_rows p z l1 ++ group_rows p z l2.
Proof. unfold group_rows. apply List.filter_app. Qed.

(** The rows of one class in the grouped draw are the draw from that
    class. *)
Lemma group_rows_balanced p rs g k keys z :
  NoDup keys → z ∈ keys →
  ∃ k', group_rows p z (balanced_rows cap p rs g k keys)
        = choose (min (class_count p z rs) cap) g k' (group_rows p z rs).
Proof.
  intros Hnd. revert k.
  induction Hnd as [|key keys Hnotin Hnd IH]; intros k Hin;
    [by apply elem_of_nil in Hin|].
  cbn [balanced_rows]. rewrite group_rows_app.
  assert (Hchunk : Forall (fun r => cell_at p r = CInt key)
            (choose (min (class_count p key rs) cap) g k (group_rows p key rs))).
  { apply Forall_forall. intros r Hr.
    pose proof (group_rows_key p key rs) as Hall. rewrite Forall_forall in Hall.
    apply Hall. eapply elem_of_submseteq; [exact Hr|apply choose_submseteq]. }
  destruct (decide (key = z)) as [->|Hne].
  - exists k. rewrite (group_rows_nil p z (balanced_rows _ _ _ _ _ keys)).
    + rewrite app_nil_r. unfold group_rows at 1. apply filter_all_true.
      eapply Forall_impl; [exact Hchunk|]. intros r Hr.
      by apply bool_decide_eq_true.
    + rewrite class_count_balanced by done. by rewrite decide_False.
  - apply elem_of_cons in Hin as [->|Hin]; [done|].
    destruct (IH (k + min (class_count p key rs) cap) Hin) as [k' Hk'].
    exists k'. rewrite <- Hk'.
    rewrite (group_rows_nil p z (choose _ _ _ _)); [reflexivity|].
    rewrite (class_count_same p z key _ Hchunk). by rewrite decide_False.
Qed.

End BalanceRows.

(** What [balance] returns, with its group keys. *)
Lemma balance_rows df p st :
  col_pos "rating" (columns df) = Some p →
  int_column p (rows df) →
  ∃ keys,
    NoDup keys
    ∧ (∀ z, z ∈ keys ↔ ∃ r, r ∈ rows df ∧ cell_at p r = CInt z)
    ∧ balance df st
      = Ok (mkFrame (columns df)
                    (balanced_rows 2369 p (rows df) (draws st) (consumed st) keys),
            mkRandom (draws st)
                     (consumed st + balanced_size 2369 p (rows df) keys)).
Proof.
  intros Hp Hint.
  destruct (groupby_sample_spec 2369 df "rating" p st Hp Hint)
    as (keys & Hnd & Hkeys & Hbal).
  exists keys. split; [done|]. split; [done|]. exact Hbal.
Qed.

(** The grouped draw returns rows of the frame, none more often than it
    occurs there, under the columns of the frame. *)
Lemma balance_submseteq df p st b st' :
  col_pos "rating" (columns df) = Some p →
  int_column p (rows df) →
  balance df st = Ok (b, st') →
  columns b = columns df ∧ rows b ⊆+ rows df.
Proof.
  intros Hp Hint Hb.
  destruct (balance_rows df p st Hp Hint) as (keys & Hnd & Hkeys & Hbal).
  rewrite Hbal in Hb. apply Ok_pair_inv in Hb as [<- _]. cbn [columns rows].
  split; [reflexivity|]. by apply balanced_rows_submseteq.
Qed.

(** X12: the subsample never holds a review more often than the frame it
    is drawn from: its rows are rows of the frame, each at most as often
    as there, so reviews with distinct labels keep distinct labels.  It
    returns exactly when the frame has at least 1000 rows, and raises
    [ValueError] when it has fewer. *)
Theorem X12_subsample_of_the_frame (df : DataFrame) (p : nat) (st : RandomState) :
  NoDup (columns df) →
  col_pos "rating" (columns df) = Some p →
  int_column p (rows df) →
  ((∃ final st', cell9 df st = Ok (final, st')) ↔ 1000 ≤ length (rows df))
  ∧ (length (rows df) < 1000 → cell9 df st = Raise ValueError)
  ∧ ∀ final st', cell9 df st = Ok (final, st') →
      columns final = columns df
      ∧ rows final ⊆+ rows df
      ∧ (NoDup (labels df) → NoDup (labels final)).
Proof.
  intros _ Hp Hint.
  pose proof (cell9_small_frame df p st Hp Hint) as Hsmall.
  split; [|split; [exact Hsmall|]].
  - split; [|apply (cell9_returns df p st Hp Hint)].
    intros (final & st' & H).
    apply Nat.le_ngt. intros Hlt. rewrite (Hsmall Hlt) in H. discriminate H.
  - intros final st' Hcell.
    destruct (cell9_inv df p st final st' Hp Hint Hcell)
      as (b & st1 & Hbal & Hsample & _ & _ & Hsub & _).
    destruct (balance_submseteq df p st b st1 Hp Hint Hbal) as [Hcols Hrows].
    apply sample_inv in Hsample as [_ Hfinal].
    assert (Hall : rows final ⊆+ rows df) by (etrans; [exact Hsub|exact Hrows]).
    split; [rewrite Hfinal; exact Hcols|]. split; [exact Hall|].
    intros Hl. unfold labels in *.
    eapply submseteq_NoDup_l; [|exact Hl]. apply fmap_submseteq, Hall.
Qed.

Lemma X12_subsample_of_the_frame_witness :
  ((∃ final st', cell9 Samples.big Samples.st0 = Ok (final, st'))
   ↔ 1000 ≤ length (rows Samples.big))
  ∧ (length (rows Samples.big) < 1000 →
     cell9 Samples.big Samples.st0 = Raise ValueError)
  ∧ ∀ final st', cell9 Samples.big Samples.st0 = Ok (final, st') →
      columns final = columns Samples.big
      ∧ rows final ⊆+ rows Samples.big
      ∧ (NoDup (labels Samples.big) → NoDup (labels final)).
Proof.
  apply (X12_subsample_of_the_frame Samples.big 0 Samples.st0).
  - apply (bool_decide_unpack _). vm_compute. exact I.
  - reflexivity.
  - unfold int_column, Samples.big. cbn [rows].
    apply Forall_app. split; apply Forall_replicate; eexists; reflexivity.
Defined.

(** X13: a rating class of at most 2369 reviews passes the grouped draw
    whole: the rows of that class in the frame [balance] returns are the
    rows of that class in the input, reordered. *)
Theorem X13_small_classes_kept (df : DataFrame) (p : nat) (st : RandomState) :
  NoDup (columns df) →
  col_pos "rating" (columns df) = Some p →
  int_column p (rows df) →
  ∃ b st', balance df st = Ok (b, st')
    ∧ rows b ⊆+ rows df
    ∧ ∀ z, class_count p z (rows df) ≤ 2369 →
           group_rows p z (rows b) ≡ₚ group_rows p z (rows df).
Proof.
  intros _ Hp Hint.
  destruct (balance_rows df p st Hp Hint) as (keys & Hnd & Hkeys & Hbal).
  eexists _, _. split; [exact Hbal|]. cbn [rows].
  split; [by apply balanced_rows_submseteq|].
  intros z Hz. destruct (decide (z ∈ keys)) as [Hin|Hout].
  - destruct (group_rows_balanced 2369 p (rows df) (draws st) (consumed st) keys z
                Hnd Hin) as [k' ->].
    apply submseteq_length_Permutation; [apply choose_submseteq|].
    rewrite length_choose; fold (class_count p z (rows df)); lia.
  - rewrite (group_rows_nil p z (rows df)).
    + rewrite (group_rows_nil p z); [done|].
      rewrite class_count_balanced by done. by rewrite decide_False.
    + apply class_count_absent. by rewrite <- Hkeys.
Qed.

Lemma X13_small_classes_kept_witness :
  ∃ b st', balance Samples.big Samples.st0 = Ok (b, st')
    ∧ rows b ⊆+ rows Samples.big
    ∧ ∀ z, class_count 0 z (rows Samples.big) ≤ 2369 →
           group_rows 0 z (rows b) ≡ₚ group_rows 0 z (rows Samples.big).
Proof.
  apply (X13_small_classes_kept Samples.big 0 Samples.st0).
  - apply (bool_decide_unpack _). vm_compute. exact I.
  - reflexivity.
  - unfold int_column, Samples.big. cbn [rows].
    apply Forall_app. split; apply Forall_replicate; eexists; reflexivity.
Defined.

(** *** Counting the ratings *)

Lemma more_frequent_total : Total more_frequent.
Proof. intros a b. unfold more_frequent. lia. Qed.

Lemma sum_indicator (x : Cell) (ks : list Cell) :
  NoDup ks →
  sum_list_with (fun c => if bool_decide (x = c) then 1 else 0) ks
  = if decide (x ∈ ks) then 1 else 0.
Proof.
  induction 1 as [|k ks Hnotin Hnd IH]; cbn [sum_list_with].
  - by rewrite decide_False by apply not_elem_of_nil.
  - rewrite IH. destruct (decide (x = k)) as [->|Hne].
    + rewrite bool_decide_eq_true_2 by done.
      rewrite (decide_False (P := k ∈ ks)) by done.
      by rewrite decide_True by left.
    + rewrite bool_decide_eq_false_2 by done.
      destruct (decide (x ∈ ks)) as [Hin|Hout].
      * by rewrite decide_True by (by right).
      * rewrite decide_False; [done|]. by intros [?|?]%elem_of_cons.
Qed.

Lemma count_value_cons c x (s : Series) :
  count_value c (x :: s) = (if bool_decide (x = c) then 1 else 0) + count_value c s.
Proof. unfold count_value. cbn [List.filter]. by destruct (bool_decide (x = c)). Qed.

Lemma count_value_pos c (s : Series) : 0 < count_value c s ↔ c ∈ s.
Proof.
  induction s as [|x s IH].
  - split; [cbn; lia|by intros ?%elem_of_nil].
  - rewrite count_value_cons, elem_of_cons.
    destruct (decide (x = c)) as [->|Hne].
    + rewrite bool_decide_eq_true_2 by done. split; [by left|lia].
    + rewrite bool_decide_eq_false_2 by done. rewrite <- IH.
      split; [intros; right; lia|intros [?|?]; [congruence|lia]].
Qed.

(** The counts of the values that are not missing add up to their number. *)
Lemma sum_count_value (ks : list Cell) (s : Series) :
  NoDup ks → CNaN ∉ ks →
  (∀ x, x ∈ s → notna x = true → x ∈ ks) →
  sum_list_with (fun c => count_value c s) ks = length (List.filter notna s).
Proof.
  intros Hnd Hnan. induction s as [|x s IH]; intros Hin.
  - cbn. clear. induction ks as [|k ks IH]; [done|]. cbn. by rewrite IH.
  - rewrite (sum_list_with_ext _ _ _ (fun c => count_value_cons c x s)).
    rewrite sum_list_with_add, sum_indicator by done.
    rewrite IH by (intros y Hy; apply Hin; by right).
    cbn [List.filter]. destruct (notna x) eqn:Ex.
    + rewrite decide_True by (apply Hin; [by left|done]). done.
    + destruct x; try discriminate. by rewrite decide_False.
Qed.

Lemma count_value_map p c (rs : list Row) :
  count_value c (map (cell_at p) rs)
  = length (List.filter (fun r => bool_decide (cell_at p r = c)) rs).
Proof. unfold count_value. by rewrite filter_map_bool, length_map. Qed.

Lemma sum_list_fmap_snd {A} (f : A → nat) (l : list A) :
  sum_list ((map (fun c => (c, f c)) l).*2) = sum_list_with f l.
Proof. induction l as [|x l IH]; cbn; [done|]. by rewrite <- IH. Qed.

Lemma fmap_fst_pair {A B} (f : A → B) (l : list A) :
  (map (fun c => (c, f c)) l).*1 = l.
Proof. induction l as [|x l IH]; cbn; [done|]. by f_equal. Qed.

(** What [value_counts] returns, whatever the order of equal counts. *)
Lemma value_counts_spec (s : Series) :
  NoDup ((value_counts s).*1)
  ∧ (∀ c n, (c, n) ∈ value_counts s
            ↔ c ≠ CNaN ∧ n = count_value c s ∧ 0 < n)
  ∧ Sorted more_frequent (value_counts s)
  ∧ sum_list ((value_counts s).*2) = length (List.filter notna s).
Proof.
  set (keys := remove_dups (List.filter notna s)).
  assert (Hperm : value_counts s ≡ₚ map (fun c => (c, count_value c s)) keys)
    by apply merge_sort_Permutation.
  assert (Hkeys : ∀ c, c ∈ keys ↔ c ∈ s ∧ notna c = true).
  { intros c. unfold keys. rewrite elem_of_remove_dups, list_elem_of_In, filter_In.
    by rewrite <- list_elem_of_In. }
  assert (Hnd : NoDup keys) by apply NoDup_remove_dups.
  split; [|split; [|split]].
  - rewrite Hperm, fmap_fst_pair. exact Hnd.
  - intros c n. rewrite Hperm. split.
    + intros (c' & [= -> ->] & Hc)%list_elem_of_fmap.
      apply Hkeys in Hc as [Hin Hna].
      split; [by destruct c'|]. split; [done|]. by apply count_value_pos.
    + intros (Hne & -> & Hpos). apply list_elem_of_fmap. exists c. split; [done|].
      apply Hkeys. split; [by apply count_value_pos|by destruct c].
  - apply (@Sorted_merge_sort _ more_frequent _ more_frequent_total).
  - rewrite Hperm, sum_list_fmap_snd. apply sum_count_value; [done| |].
    + intros [_ H]%Hkeys. discriminate.
    + intros x Hx Hna. by apply Hkeys.
Qed.

(** What cell 8 returns on a frame with a rating column. *)
Lemma cell8_spec (df : DataFrame) (p : nat) :
  col_pos "rating" (columns df) = Some p →
  ∃ vc, cell8 df = Ok vc
    ∧ NoDup (vc.*1)
    ∧ (∀ z n, (CInt z, n) ∈ vc ↔ n = class_count p z (rows df) ∧ 0 < n)
    ∧ (∀ c n, (c, n) ∈ vc → c ≠ CNaN ∧ ∃ r, r ∈ rows df ∧ cell_at p r = c)
    ∧ Sorted more_frequent vc
    ∧ sum_list (vc.*2)
      = length (List.filter (fun r => notna (cell_at p r)) (rows df)).
Proof.
  intros Hp. exists (value_counts (map (cell_at p) (rows df))).
  destruct (value_counts_spec (map (cell_at p) (rows df)))
    as (Hnd & Hin & Hsorted & Hsum).
  split; [unfold cell8; by rewrite (getattr_spec df "rating" p Hp)|].
  split; [exact Hnd|]. split; [|split; [|split; [exact Hsorted|]]].
  - intros z n. rewrite Hin, count_value_map. fold (group_rows p z (rows df)).
    fold (class_count p z (rows df)).
    split; [by intros (_ & ? & ?)|by intros [? ?]].
  - intros c n (Hne & -> & Hpos)%Hin. split; [done|].
    apply count_value_pos, list_elem_of_fmap in Hpos as (r & -> & Hr). eauto.
  - rewrite Hsum, filter_map_bool. apply length_map.
Qed.

(** X14: [df.rating.value_counts()] raises [AttributeError] on a frame
    without a rating column.  Otherwise it lists every rating that occurs
    in the frame once, with the number of rows that carry it, the larger
    counts first; a missing rating is not listed and not counted, so that
    the counts add up to the number of rows with a rating. *)
Theorem X14_value_counts (df : DataFrame) :
  NoDup (columns df) →
  match col_pos "rating" (columns df) with
  | None => cell8 df = Raise (AttributeError "rating")
  | Some p =>
      ∃ vc, cell8 df = Ok vc
        ∧ NoDup (vc.*1)
        ∧ (∀ z n, (CInt z, n) ∈ vc ↔ n = class_count p z (rows df) ∧ 0 < n)
        ∧ (∀ c n, (c, n) ∈ vc → c ≠ CNaN ∧ ∃ r, r ∈ rows df ∧ cell_at p r = c)
        ∧ Sorted more_frequent vc
        ∧ sum_list (vc.*2)
          = length (List.filter (fun r => notna (cell_at p r)) (rows df))
  end.
Proof.
  intros _. destruct (col_pos "rating" (columns df)) as [p|] eqn:Hp.
  - by apply cell8_spec.
  - unfold cell8, getattr. by rewrite Hp.
Qed.

Lemma X14_value_counts_witness :
  ∃ vc, cell8 Samples.df1 = Ok vc
    ∧ NoDup (vc.*1)
    ∧ (∀ z n, (CInt z, n) ∈ vc ↔ n = class_count 4 z (rows Samples.df1) ∧ 0 < n)
    ∧ (∀ c n, (c, n) ∈ vc → c ≠ CNaN ∧ ∃ r, r ∈ rows Samples.df1 ∧ cell_at 4 r = c)
    ∧ Sorted more_frequent vc
    ∧ sum_list (vc.*2)
      = length (List.filter (fun r => notna (cell_at 4 r)) (rows Samples.df1)).
Proof.
  apply (X14_value_counts Samples.df1).
  apply (bool_decide_unpack _). vm_compute. exact I.
Defined.

Section BalancedCounts.
Variable cap : nat.

Lemma sum_list_const (l : list (Cell * nat)) :
  Forall (fun kc => snd kc = cap) l → sum_list (l.*2) = cap * length l.
Proof. induction 1 as [|[c n] l Hc _ IH]; cbn in *; [lia|]. rewrite IH. lia. Qed.

(** The counts of the frame a grouped draw returns. *)
Lemma value_counts_balanced df p g k keys :
  int_column p (rows df) →
  NoDup keys →
  (∀ z, z ∈ keys ↔ ∃ r, r ∈ rows df ∧ cell_at p r = CInt z) →
  let vc := value_counts (map (cell_at p) (rows df)) in
  let vc' := value_counts
               (map (cell_at p) (balanced_rows cap p (rows df) g k keys)) in
  0 < cap →
  (∀ c n, (c, n) ∈ vc' ↔ ∃ m, (c, m) ∈ vc ∧ n = min m cap)
  ∧ vc'.*1 ≡ₚ vc.*1
  ∧ (Forall (fun kc => cap ≤ snd kc) vc →
     Forall (fun kc => snd kc = cap) vc'
     ∧ length (balanced_rows cap p (rows df) g k keys) = cap * length vc).
Proof.
  intros Hint Hnd Hkeys vc vc' Hcap.
  destruct (balanced_counts cap df p g k keys Hint Hnd Hkeys) as (Hcount & _ & _).
  destruct (value_counts_spec (map (cell_at p) (rows df)))
    as (Hnd1 & Hin1 & _ & _).
  destruct (value_counts_spec
              (map (cell_at p) (balanced_rows cap p (rows df) g k keys)))
    as (Hnd2 & Hin2 & _ & Hsum2).
  fold vc in Hnd1, Hin1. fold vc' in Hnd2, Hin2, Hsum2.
  assert (Hcells : ∀ c, c ∈ map (cell_at p) (rows df) → ∃ z, c = CInt z).
  { intros c (r & -> & Hr)%list_elem_of_fmap.
    unfold int_column in Hint. rewrite Forall_forall in Hint.
    destruct (Hint r Hr) as [z Hz]. exists z. by apply cell_at_lookup. }
  assert (Hcells' : ∀ c, c ∈ map (cell_at p) (balanced_rows cap p (rows df) g k keys)
                         → ∃ z, c = CInt z).
  { intros c (r & -> & Hr)%list_elem_of_fmap. apply Hcells.
    apply list_elem_of_fmap. exists r. split; [done|].
    by eapply elem_of_balanced_rows. }
  assert (Hmem : ∀ c n, (c, n) ∈ vc' ↔ ∃ m, (c, m) ∈ vc ∧ n = min m cap).
  { intros c n. split.
    - intros Hc. pose proof Hc as (Hne & -> & Hpos)%Hin2.
      destruct (Hcells' c) as [z ->]; [by apply count_value_pos|].
      rewrite count_value_map in *.
      fold (group_rows p z (balanced_rows cap p (rows df) g k keys)) in *.
      fold (class_count p z (balanced_rows cap p (rows df) g k keys)) in *.
      rewrite Hcount in *. exists (class_count p z (rows df)). split; [|done].
      apply Hin1. split; [done|]. rewrite count_value_map. split; [done|].
      fold (group_rows p z (rows df)). fold (class_count p z (rows df)). lia.
    - intros (m & (Hne & -> & Hpos)%Hin1 & ->).
      destruct (Hcells c) as [z ->]; [by apply count_value_pos|].
      apply Hin2. split; [done|]. rewrite !count_value_map in *.
      fold (group_rows p z (balanced_rows cap p (rows df) g k keys)).
      fold (class_count p z (balanced_rows cap p (rows df) g k keys)).
      fold (group_rows p z (rows df)) in *. fold (class_count p z (rows df)) in *.
      rewrite Hcount. split; [done|lia]. }
  assert (Hfst : vc'.*1 ≡ₚ vc.*1).
  { apply NoDup_Permutation; [done|done|]. intros c.
    rewrite !list_elem_of_fmap. split.
    - intros ([c' n] & -> & (m & Hm & _)%Hmem). by exists (c', m).
    - intros ([c' m] & -> & Hm). exists (c', min m cap). split; [done|].
      apply Hmem. eauto. }
  split; [exact Hmem|]. split; [exact Hfst|].
  intros Hall.
  assert (Hall' : Forall (fun kc => snd kc = cap) vc').
  { apply Forall_forall. intros [c n] (m & Hm & ->)%Hmem.
    rewrite Forall_forall in Hall. specialize (Hall _ Hm). cbn in *. lia. }
  split; [exact Hall'|].
  assert (Hlen : length vc' = length vc).
  { rewrite <- (length_fmap fst vc'), <- (length_fmap fst vc). by rewrite Hfst. }
  rewrite <- Hlen, <- (sum_list_const vc' Hall'), Hsum2.
  rewrite filter_map_bool, length_map. symmetry. f_equal.
  apply filter_all_true. apply Forall_forall. intros r Hr.
  destruct (Hcells' (cell_at p r)) as [z ->]; [|done].
  apply list_elem_of_fmap. eauto.
Qed.

End BalancedCounts.

(** X15: counting the ratings again after the grouped draw gives the same
    ratings, each with the smaller of its former count and 2369.  When
    2369 is at most the smallest count of cell 8, every class of the
    frame [balance] returns has 2369 rows, and the frame has 2369 rows
    for each rating cell 8 lists. *)
Theorem X15_counts_after_balance (df : DataFrame) (p : nat) (st : RandomState) :
  NoDup (columns df) →
  col_pos "rating" (columns df) = Some p →
  int_column p (rows df) →
  ∃ vc b st' vc',
    cell8 df = Ok vc
    ∧ balance df st = Ok (b, st')
    ∧ cell8 b = Ok vc'
    ∧ (∀ c n, (c, n) ∈ vc' ↔ ∃ m, (c, m) ∈ vc ∧ n = min m 2369)
    ∧ vc'.*1 ≡ₚ vc.*1
    ∧ (Forall (fun kc => 2369 ≤ snd kc) vc →
       Forall (fun kc => snd kc = 2369) vc'
       ∧ length (rows b) = 2369 * length vc).
Proof.
  intros _ Hp Hint.
  destruct (balance_rows df p st Hp Hint) as (keys & Hnd & Hkeys & Hbal).
  eexists _, _, _, _. split; [|split; [exact Hbal|split]].
  - unfold cell8. rewrite (getattr_spec df "rating" p Hp). reflexivity.
  - unfold cell8. rewrite (getattr_spec _ "rating" p) by exact Hp.
    cbn [rows]. reflexivity.
  - cbn [rows].
    apply (value_counts_balanced 2369 df p (draws st) (consumed st) keys
             Hint Hnd Hkeys).
    lia.
Qed.

Lemma X15_counts_after_balance_witness :
  ∃ vc b st' vc',
    cell8 Samples.big = Ok vc
    ∧ balance Samples.big Samples.st0 = Ok (b, st')
    ∧ cell8 b = Ok vc'
    ∧ (∀ c n, (c, n) ∈ vc' ↔ ∃ m, (c, m) ∈ vc ∧ n = min m 2369)
    ∧ vc'.*1 ≡ₚ vc.*1
    ∧ (Forall (fun kc => 2369 ≤ snd kc) vc →
       Forall (fun kc => snd kc = 2369) vc'
       ∧ length (rows b) = 2369 * length vc).
Proof.
  apply (X15_counts_after_balance Samples.big 0 Samples.st0).
  - apply (bool_decide_unpack _). vm_compute. exact I.
  - reflexivity.
  - unfold int_column, Samples.big. cbn [rows].
    apply Forall_app. split; apply Forall_replicate; eexists; reflexivity.
Defined.
